(** * Enhanced SIP back-test: a shallow embedding

    The development follows three Python modules:

    - [mutual_fund_fetcher.py]: [MutualFundFetcher.get_nav_history];
    - [backtest_enhanced_sip.py]: [SIPBacktest.get_historical_data],
      [calculate_enhanced_multiplier], [simulate_sip],
      [calculate_rolling_returns], [compare_strategies];
    - [enhanced_sip.py]: [EnhancedSIP.analyze_nav_trends],
      [find_best_investment_dates], [_get_recommendation],
      [get_monthly_investment_strategy], [_get_strategy_message].

    Modelling decisions.

    - Numbers.  Python and NumPy doubles are modelled by [float]: an exact
      rational, or one of the IEEE special values +inf, -inf, NaN.  Rounding
      error, overflow and the sign of zero are idealised away; the special
      values are kept because the source relies on them ([pct_change] leaves a
      NaN in the first row, [pd.notna] tests for it, NumPy division by zero
      yields inf or NaN and only warns).
    - Data frames are lists of rows, in row order.  [sort_values] is modelled
      by a stable insertion sort; the statements below only rely on the result
      being an ordered permutation, which every sorting algorithm gives.
    - Exceptions are the [Raise] outcome of [result].
    - Console output is not modelled.  The remote service is a function from
      scheme codes to payloads. *)

From Stdlib Require Import ZArith QArith Qabs Qround Bool Ascii String List.
From Stdlib Require Import Lia Lqa.
From Stdlib Require Import Sorting.Permutation Sorting.Sorted.
Import ListNotations.

(** ** Numbers *)

Inductive float : Type :=
| Fin (q : Q)
| PInf
| NInf
| NaN.

Declare Scope float_scope.
Delimit Scope float_scope with float.
Bind Scope float_scope with float.

Definition Qltb (a b : Q) : bool := negb (Qle_bool b a).
Definition Qis_zero (a : Q) : bool := Qeq_bool a 0.

(** [pd.notna] on a scalar. *)
Definition notna (x : float) : bool :=
  match x with NaN => false | _ => true end.

Definition fneg (x : float) : float :=
  match x with
  | Fin a => Fin (- a)
  | PInf => NInf
  | NInf => PInf
  | NaN => NaN
  end.

Definition fabs (x : float) : float :=
  match x with
  | Fin a => Fin (Qabs a)
  | PInf | NInf => PInf
  | NaN => NaN
  end.

Definition fadd (x y : float) : float :=
  match x, y with
  | NaN, _ | _, NaN => NaN
  | Fin a, Fin b => Fin (a + b)
  | PInf, NInf | NInf, PInf => NaN
  | PInf, _ | _, PInf => PInf
  | NInf, _ | _, NInf => NInf
  end.

Definition fsub (x y : float) : float := fadd x (fneg y).

(** An infinity times a finite factor: the sign follows the factor, and
    inf * 0 is NaN. *)
Definition inf_times (positive : bool) (a : Q) : float :=
  if Qis_zero a then NaN
  else if Bool.eqb positive (Qltb 0 a) then PInf else NInf.

Definition fmul (x y : float) : float :=
  match x, y with
  | NaN, _ | _, NaN => NaN
  | Fin a, Fin b => Fin (a * b)
  | PInf, Fin a | Fin a, PInf => inf_times true a
  | NInf, Fin a | Fin a, NInf => inf_times false a
  | PInf, PInf | NInf, NInf => PInf
  | PInf, NInf | NInf, PInf => NInf
  end.

(** NumPy division: a zero divisor gives an infinity (NaN for 0/0) instead of
    raising. *)
Definition fdiv (x y : float) : float :=
  match x, y with
  | NaN, _ | _, NaN => NaN
  | Fin a, Fin b =>
      if Qis_zero b then
        if Qis_zero a then NaN else if Qltb 0 a then PInf else NInf
      else Fin (a / b)
  | Fin _, (PInf | NInf) => Fin 0
  | PInf, Fin b => if Qltb b 0 then NInf else PInf
  | NInf, Fin b => if Qltb b 0 then PInf else NInf
  | (PInf | NInf), (PInf | NInf) => NaN
  end.

(** Comparisons: every comparison with NaN is false. *)
Definition fleb (x y : float) : bool :=
  match x, y with
  | NaN, _ | _, NaN => false
  | Fin a, Fin b => Qle_bool a b
  | NInf, _ | _, PInf => true
  | PInf, _ | _, NInf => false
  end.

Definition fltb (x y : float) : bool :=
  match x, y with
  | NaN, _ | _, NaN => false
  | Fin a, Fin b => Qltb a b
  | PInf, _ | _, NInf => false
  | NInf, _ | _, PInf => true
  end.

Definition fgtb (x y : float) : bool := fltb y x.
Definition fgeb (x y : float) : bool := fleb y x.

Infix "+" := fadd : float_scope.
Infix "-" := fsub : float_scope.
Infix "*" := fmul : float_scope.
Infix "/" := fdiv : float_scope.
Infix "<=?" := fleb : float_scope.
Infix "<?" := fltb : float_scope.
Infix ">?" := fgtb (at level 70) : float_scope.
Infix ">=?" := fgeb (at level 70) : float_scope.

(** Rounding to the nearest integer, ties to the even one. *)
Definition round_half_even (a : Q) : Z :=
  let lo := Qfloor a in
  match ((a - inject_Z lo) * 2 ?= 1)%Q with
  | Lt => lo
  | Gt => (lo + 1)%Z
  | Eq => if Z.even lo then lo else (lo + 1)%Z
  end.

(** [round(x, ndigits)]: the special values are returned unchanged. *)
Definition round (x : float) (ndigits : nat) : float :=
  match x with
  | Fin a =>
      let scale := inject_Z (10 ^ Z.of_nat ndigits) in
      Fin (Qred (inject_Z (round_half_even (a * scale)) / scale))
  | _ => x
  end.

(** [sum(xs)] of Python: a left-to-right accumulation from 0. *)
Definition sum (xs : list float) : float :=
  fold_left fadd xs (Fin 0).

(** [Series.sum()] of pandas, with its default [skipna=True]. *)
Definition series_sum (xs : list float) : float :=
  sum (filter notna xs).

(** [Series.mean()], with [skipna=True]; the mean of nothing is NaN. *)
Definition series_mean (xs : list float) : float :=
  let present := filter notna xs in
  match present with
  | [] => NaN
  | _ => fdiv (sum present) (Fin (inject_Z (Z.of_nat (length present))))
  end.

(** ** Outcomes of a call *)

Inductive exn : Type :=
| IndexError   (** a positional indexer out of bounds *)
| KeyError.    (** a column that the frame does not have *)

Inductive result (A : Type) : Type :=
| Ok (a : A)
| Raise (e : exn).

Arguments Ok {A} a.
Arguments Raise {A} e.

Definition bind {A B : Type} (m : result A) (k : A -> result B) : result B :=
  match m with
  | Ok a => k a
  | Raise e => Raise e
  end.

Notation "x <- m ;; k" := (bind m (fun x => k))
  (at level 61, m at next level, right associativity).

(** [mapM]: run [f] over a list, stopping at the first exception. *)
Fixpoint traverse {A B : Type} (f : A -> result B) (l : list A)
  : result (list B) :=
  match l with
  | [] => Ok []
  | a :: t => b <- f a ;; bs <- traverse f t ;; Ok (b :: bs)
  end.

(** ** Python sequences *)

Section PySeq.
Context {A : Type}.

Definition len (l : list A) : Z := Z.of_nat (List.length l).

(** [l[i]] and [df.iloc[i]]: a negative index counts from the end. *)
Definition iloc (l : list A) (i : Z) : result A :=
  let j := if (i <? 0)%Z then (len l + i)%Z else i in
  if (j <? 0)%Z then Raise IndexError
  else match nth_error l (Z.to_nat j) with
       | Some a => Ok a
       | None => Raise IndexError
       end.

(** A slice bound is clamped into [0, len]. *)
Definition clamp (l : list A) (i : Z) : nat :=
  let j := if (i <? 0)%Z then (len l + i)%Z else i in
  Z.to_nat (Z.min (Z.max j 0) (len l)).

(** [l[a:b]] and [df.iloc[a:b]]. *)
Definition slice (l : list A) (a b : Z) : list A :=
  let lo := clamp l a in
  let hi := clamp l b in
  firstn (hi - lo) (skipn lo l).

(** [l[:n]]. *)
Definition take (l : list A) (n : Z) : list A := slice l 0 n.
End PySeq.

(** [range(a, b)]. *)
Definition range (a b : Z) : list Z :=
  map (fun k => (a + Z.of_nat k)%Z) (seq 0 (Z.to_nat (b - a))).

(** ** Sorting *)

Section StableSort.
Context {A : Type}.
Variable leb : A -> A -> bool.

Fixpoint insert (x : A) (l : list A) : list A :=
  match l with
  | [] => [x]
  | y :: t => if leb x y then x :: y :: t else y :: insert x t
  end.

(** Rows with equal keys keep their relative order. *)
Fixpoint stable_sort (l : list A) : list A :=
  match l with
  | [] => []
  | x :: t => insert x (stable_sort t)
  end.
End StableSort.

(** ** Calendar dates *)

(** A parsed ['%d-%m-%Y'] date, as [pd.Timestamp] holds it. *)
Record timestamp : Type := mkDate { year : Z; month : Z; day : Z }.

(** Chronological order of timestamps. *)
Definition date_leb (a b : timestamp) : bool :=
  (year a <? year b)%Z
  || ((year a =? year b)%Z
      && ((month a <? month b)%Z
          || ((month a =? month b)%Z && (day a <=? day b)%Z))).

Definition date_eqb (a b : timestamp) : bool :=
  (year a =? year b)%Z && (month a =? month b)%Z && (day a =? day b)%Z.

Definition date_ltb (a b : timestamp) : bool := date_leb a b && negb (date_eqb a b).

(** [dt.to_period('M')]: the calendar month of a date. *)
Definition period : Type := (Z * Z)%type.

Definition to_period (d : timestamp) : period := (year d, month d).

Definition period_eqb (p q : period) : bool :=
  (fst p =? fst q)%Z && (snd p =? snd q)%Z.

Definition period_leb (p q : period) : bool :=
  (fst p <? fst q)%Z || ((fst p =? fst q)%Z && (snd p <=? snd q)%Z).

Definition period_ltb (p q : period) : bool :=
  period_leb p q && negb (period_eqb p q).

(** The proleptic Gregorian day number of a date, as in [date.toordinal()]. *)
Definition is_leap (y : Z) : bool :=
  ((y mod 4 =? 0) && (negb (y mod 100 =? 0) || (y mod 400 =? 0)))%Z.

Definition days_before_year (y : Z) : Z :=
  let p := (y - 1)%Z in
  (p * 365 + p / 4 - p / 100 + p / 400)%Z.

Definition days_in_month (y m : Z) : Z :=
  match m with
  | 2%Z => if is_leap y then 29%Z else 28%Z
  | 4%Z | 6%Z | 9%Z | 11%Z => 30%Z
  | _ => 31%Z
  end.

Definition days_before_month (y m : Z) : Z :=
  fold_left Z.add (map (days_in_month y) (range 1 m)) 0%Z.

Definition toordinal (d : timestamp) : Z :=
  (days_before_year (year d) + days_before_month (year d) (month d) + day d)%Z.

(** [(b - a).days]. *)
Definition days_between (a b : timestamp) : Z := (toordinal b - toordinal a)%Z.

(** ** Column operations of pandas *)

(** [Series.shift(1)]. *)
Definition shift (xs : list float) : list float :=
  match xs with
  | [] => []
  | _ => NaN :: removelast xs
  end.

(** [Series.pct_change()]: [x / x.shift(1) - 1], NaN in the first row. *)
Definition pct_change (xs : list float) : list float :=
  map (fun xp => (fst xp / snd xp - Fin 1)%float) (combine xs (shift xs)).

(** [Series.rolling(window).mean()]: NaN until the window is full. *)
Definition rolling_mean (window : nat) (xs : list float) : list float :=
  map (fun i =>
         if (S i <? window)%nat then NaN
         else (sum (firstn window (skipn (S i - window) xs))
               / Fin (inject_Z (Z.of_nat window)))%float)
      (seq 0 (List.length xs)).

(** ** The data source *)

Module MutualFundFetcher.

(** One record of the payload's ['data'] list, with the date and the price
    already parsed ([pd.to_datetime], [pd.to_numeric]). *)
Record nav_record : Type := mkRecord { rec_date : timestamp; rec_nav : Q }.

(** What [get_scheme_details] delivers for a scheme code: the payload's
    ['data'] list, or [None] when the request failed or the payload has no
    such entry. *)
Definition service : Type := string -> option (list nav_record).

(** [get_nav_history]: [days] is tested for truth, so [None] and [0] both
    mean the whole history. *)
Definition get_nav_history (fetch : service) (scheme_code : string)
    (days : option Z) : list nav_record :=
  match fetch scheme_code with
  | Some history =>
      match days with
      | Some n => if (n =? 0)%Z then history else take history n
      | None => history
      end
  | None => []
  end.

(** One entry of the list returned by [get_all_schemes]; the scheme code
    stands for its rendering in the request path. *)
Record scheme : Type := mkScheme { schemeCode : string; schemeName : string }.

(** [str.lower()], on ASCII text. *)
Definition lower_char (c : ascii) : ascii :=
  let n := nat_of_ascii c in
  if ((65 <=? n) && (n <=? 90))%nat then ascii_of_nat (n + 32) else c.

Fixpoint lower (s : string) : string :=
  match s with
  | EmptyString => EmptyString
  | String c t => String (lower_char c) (lower t)
  end.

(** [needle in haystack] on strings. *)
Fixpoint contains (needle haystack : string) : bool :=
  String.prefix needle haystack
  || match haystack with
     | EmptyString => false
     | String _ t => contains needle t
     end.

(** [search_schemes]: [all_schemes] is what [get_all_schemes] delivered, the
    empty list when the request failed. *)
Definition search_schemes (all_schemes : list scheme) (keyword : string)
  : list scheme :=
  let keyword_lower := lower keyword in
  filter (fun scheme => contains keyword_lower (lower (schemeName scheme)))
    all_schemes.

End MutualFundFetcher.

Import MutualFundFetcher.

(** [df.sort_values('date')] on the raw records. *)
Definition sort_records : list nav_record -> list nav_record :=
  stable_sort (fun a b => date_leb (rec_date a) (rec_date b)).

(** ** x ** y *)

Section Power.
(** The power of two finite operands, as the platform's [pow] returns it;
    the result is not a rational in general. *)
Variable real_pow : Q -> Q -> float.

Definition is_odd_integer (b : Q) : bool :=
  let r := Qred b in
  (Zpos (Qden r) =? 1)%Z && Z.odd (Qnum r).

(** The special cases are those of C99, Annex F.9.4.4. *)
Definition pow (x y : float) : float :=
  match x, y with
  | Fin a, Fin b =>
      if Qis_zero b || Qeq_bool a 1 then Fin 1 else real_pow a b
  | Fin a, NaN => if Qeq_bool a 1 then Fin 1 else NaN
  | (PInf | NInf | NaN), Fin b =>
      if Qis_zero b then Fin 1
      else match x with
           | PInf => if Qltb b 0 then Fin 0 else PInf
           | NInf => if Qltb b 0 then Fin 0
                     else if is_odd_integer b then NInf else PInf
           | _ => NaN
           end
  | NaN, _ | (PInf | NInf), NaN => NaN
  | Fin a, PInf =>
      if Qeq_bool (Qabs a) 1 then Fin 1
      else if Qltb (Qabs a) 1 then Fin 0 else PInf
  | Fin a, NInf =>
      if Qeq_bool (Qabs a) 1 then Fin 1
      else if Qltb (Qabs a) 1 then PInf else Fin 0
  | (PInf | NInf), PInf => PInf
  | (PInf | NInf), NInf => Fin 0
  end.
End Power.

(** ** backtest_enhanced_sip.py *)

Module SIPBacktest.

Local Open Scope float_scope.

(** A row of the frame built by [get_historical_data]. *)
Record row : Type := mkRow {
  date : timestamp;
  nav : float;
  nav_change : float;
  nav_ma_30 : float
}.

Definition DataFrame : Type := list row.

(** The frame's columns, put side by side. *)
Definition make_frame (records : list nav_record) : DataFrame :=
  let navs := map (fun r => Fin (rec_nav r)) records in
  let changes := map (fun c => c * Fin 100) (pct_change navs) in
  let ma_30 := rolling_mean 30 navs in
  map (fun x => mkRow (rec_date (fst x)) (Fin (rec_nav (fst x)))
                      (fst (snd x)) (snd (snd x)))
      (combine records (combine changes ma_30)).

Definition get_historical_data (fetch : service) (scheme_code : string)
    (days : Z) : DataFrame :=
  let history := get_nav_history fetch scheme_code (Some days) in
  match history with
  | [] => []
  | _ => make_frame (sort_records history)
  end.

Definition calculate_enhanced_multiplier
    (current_nav previous_nav nav_change : float) : float :=
  if nav_change <=? Fin (-3.0) then Fin 2.0
  else if nav_change <=? Fin (-2.0) then Fin 1.5
  else if nav_change <=? Fin (-1.0) then Fin 1.25
  else if current_nav <? previous_nav * Fin 0.98 then Fin 1.15
  else if current_nav >? previous_nav * Fin 1.02 then Fin 0.85
  else Fin 1.0.

(** One entry of the ['investments'] ledger. *)
Record investment : Type := mkInvestment {
  inv_date : timestamp;
  inv_nav : float;
  inv_nav_change : float;
  amount : float;
  units : float;
  inv_total_units : float;
  inv_total_invested : float
}.

(** The dictionary returned by [simulate_sip]. *)
Record simulation : Type := mkSimulation {
  strategy : string;
  total_invested : float;
  total_units : float;
  final_nav : float;
  final_value : float;
  absolute_return : float;
  return_percent : float;
  cagr : float;
  num_investments : nat;
  investments : list investment
}.

(** [df['date'].dt.to_period('M')] of a row. *)
Definition year_month (r : row) : period := to_period (date r).

Fixpoint insert_key (k : period) (ks : list period) : list period :=
  match ks with
  | [] => [k]
  | h :: t =>
      if period_eqb k h then ks
      else if period_leb k h then k :: ks
      else h :: insert_key k t
  end.

(** The distinct months of the frame, in ascending order. *)
Definition group_keys (df : DataFrame) : list period :=
  fold_right insert_key [] (map year_month df).

(** [df.groupby('year_month')]: the groups come in ascending key order and
    a group holds its rows in frame order. *)
Definition groupby_year_month (df : DataFrame)
  : list (period * DataFrame) :=
  map (fun k => (k, filter (fun r => period_eqb (year_month r) k) df))
      (group_keys df).

Definition sort_by_date : DataFrame -> DataFrame :=
  stable_sort (fun a b => date_leb (date a) (date b)).

(** The loop variables of [simulate_sip]. *)
Record ledger : Type := mkLedger {
  acc_invested : float;
  acc_units : float;
  acc_investments : list investment
}.

(** The branch of the loop body that sets [investment_amount]. *)
Definition investment_amount (base_amount : float) (strategy : string)
    (invest_row : row) : float :=
  if String.eqb strategy "enhanced" then
    let multiplier :=
      if notna (nav_change invest_row) then
        let prev_nav :=
          nav invest_row / (Fin 1 + nav_change invest_row / Fin 100) in
        calculate_enhanced_multiplier
          (nav invest_row) prev_nav (nav_change invest_row)
      else Fin 1.0 in
    base_amount * multiplier
  else base_amount.

(** One iteration of the loop over the groups. *)
Definition invest (base_amount : float) (strategy : string)
    (st : ledger) (group : DataFrame) : ledger :=
  let month_data := sort_by_date group in
  match month_data with
  | [] => st
  | invest_row :: _ =>
      let investment_amount :=
        investment_amount base_amount strategy invest_row in
      let units := investment_amount / nav invest_row in
      let total_invested := acc_invested st + investment_amount in
      let total_units := acc_units st + units in
      mkLedger total_invested total_units
        (acc_investments st ++
         [mkInvestment (date invest_row) (nav invest_row)
            (nav_change invest_row) investment_amount units
            total_units total_invested])
  end.

Definition run_investments (base_amount : float) (strategy : string)
    (df : DataFrame) : ledger :=
  fold_left (invest base_amount strategy)
    (map snd (groupby_year_month df))
    (mkLedger (Fin 0) (Fin 0) []).

(** A point of the frame returned by [calculate_rolling_returns]. *)
Record rolling_return : Type := mkRolling {
  rr_date : timestamp;
  invested : float;
  value : float;
  rr_return_percent : float
}.

(** [calculate_rolling_returns]; the [df] argument is not read.
    [pd.DataFrame([])] has no columns, so [inv_df['date']] raises on an
    empty ledger. *)
Definition calculate_rolling_returns (investments : list investment)
    (df : DataFrame) (window_months : Z) : result (list rolling_return) :=
  match investments with
  | [] => Raise KeyError
  | _ =>
      traverse
        (fun i =>
           let window_start := (i - window_months)%Z in
           let window_end := i in
           let window := slice investments window_start window_end in
           let invested := series_sum (map amount window) in
           let units := series_sum (map units window) in
           last <- iloc investments (window_end - 1) ;;
           let current_nav := inv_nav last in
           let current_value := units * current_nav in
           let returns :=
             if invested >? Fin 0
             then (current_value - invested) / invested * Fin 100
             else Fin 0 in
           Ok (mkRolling (inv_date last) invested current_value returns))
        (range window_months (len investments))
  end.

(** What [compare_strategies] returns: [{}] or the comparison. *)
Record comparison : Type := mkComparison {
  regular : simulation;
  enhanced : simulation;
  regular_rolling : list rolling_return;
  enhanced_rolling : list rolling_return;
  outperformance : float;
  outperformance_pct : float
}.

Inductive report : Type :=
| EmptyDict
| Comparison (c : comparison).

Section Simulation.
Variable fetch : service.
Variable real_pow : Q -> Q -> float.

(** [simulate_sip]; the [investment_day] argument is not read.  An empty
    list stands for [pd.DataFrame()], the frame without columns that
    [get_historical_data] returns for an empty history: reading its ['date']
    column raises. *)
Definition simulate_sip (df : DataFrame) (base_amount : float)
    (strategy : string) : result simulation :=
  _ <- match df with [] => Raise KeyError | _ => Ok tt end ;;
  let st := run_investments base_amount strategy df in
  let total_invested := acc_invested st in
  let total_units := acc_units st in
  let investments := acc_investments st in
  last_row <- iloc df (-1) ;;
  let final_nav := nav last_row in
  let final_value := total_units * final_nav in
  let absolute_return := final_value - total_invested in
  let return_percent :=
    if total_invested >? Fin 0
    then absolute_return / total_invested * Fin 100
    else Fin 0 in
  first_row <- iloc df 0 ;;
  let years :=
    Fin (inject_Z (days_between (date first_row) (date last_row)))
    / Fin 365.25 in
  let cagr :=
    if years >? Fin 0
    then (pow real_pow (final_value / total_invested) (Fin 1 / years)
          - Fin 1) * Fin 100
    else Fin 0 in
  Ok (mkSimulation strategy
        (round total_invested 2)
        (round total_units 3)
        (round final_nav 2)
        (round final_value 2)
        (round absolute_return 2)
        (round return_percent 2)
        (round cagr 2)
        (List.length investments)
        investments).

Definition compare_strategies (scheme_code : string)
    (base_amount : float) (days : Z) : result report :=
  let df := get_historical_data fetch scheme_code days in
  match df with
  | [] => Ok EmptyDict
  | _ =>
      regular_results <- simulate_sip df base_amount "regular" ;;
      enhanced_results <- simulate_sip df base_amount "enhanced" ;;
      regular_rolling <-
        calculate_rolling_returns (investments regular_results) df 12 ;;
      enhanced_rolling <-
        calculate_rolling_returns (investments enhanced_results) df 12 ;;
      let extra_return :=
        absolute_return enhanced_results
        - absolute_return regular_results in
      let extra_return_pct :=
        return_percent enhanced_results
        - return_percent regular_results in
      Ok (Comparison
            (mkComparison regular_results enhanced_results
               regular_rolling enhanced_rolling
               extra_return extra_return_pct))
  end.
End Simulation.

(** [backtest_fund]: the first search hit is back-tested; [{}] when nothing
    matches. *)
Definition backtest_fund (all_schemes : list scheme) (fetch : service)
    (real_pow : Q -> Q -> float) (fund_name : string)
    (base_amount : float) (days : Z) : result report :=
  let schemes := search_schemes all_schemes fund_name in
  match schemes with
  | [] => Ok EmptyDict
  | scheme :: _ =>
      compare_strategies fetch real_pow (schemeCode scheme) base_amount days
  end.

End SIPBacktest.

(** ** enhanced_sip.py *)

Module EnhancedSIP.

Local Open Scope float_scope.

(** A row of the frame built by [analyze_nav_trends].  The [volatility]
    column, a rolling sample standard deviation, is read by no function of
    the module and is left out. *)
Record row : Type := mkRow {
  date : timestamp;
  nav : float;
  nav_change : float;
  nav_ma_7 : float;
  nav_ma_30 : float;
  is_significant_drop : bool;
  is_below_ma : bool
}.

Definition DataFrame : Type := list row.

Definition make_frame (records : list nav_record) : DataFrame :=
  let navs := map (fun r => Fin (rec_nav r)) records in
  let changes := map (fun c => c * Fin 100) (pct_change navs) in
  let ma_7 := rolling_mean 7 navs in
  let ma_30 := rolling_mean 30 navs in
  map (fun x =>
         let r := fst x in
         let change := fst (snd x) in
         let avg_7 := fst (snd (snd x)) in
         let avg_30 := snd (snd (snd x)) in
         mkRow (rec_date r) (Fin (rec_nav r)) change avg_7 avg_30
               (change <? Fin (-1.0))
               (Fin (rec_nav r) <? avg_30))
      (combine records (combine changes (combine ma_7 ma_30))).

Definition analyze_nav_trends (fetch : service) (scheme_code : string)
    (days : Z) : DataFrame :=
  let history := get_nav_history fetch scheme_code (Some days) in
  match history with
  | [] => []
  | _ => make_frame (sort_records history)
  end.

Definition _get_recommendation (score : float) : string :=
  if score >=? Fin 3.0 then "Excellent - Invest 150-200% of regular SIP"
  else if score >=? Fin 2.0
  then "Very Good - Invest 125-150% of regular SIP"
  else if score >=? Fin 1.5 then "Good - Invest 110-125% of regular SIP"
  else "Moderate - Invest regular SIP amount".

(** A filtered row together with its ['opportunity_score'] column. *)
Definition opportunity_score (r : row) : float := fabs (nav_change r).

(** The order of [sort_values(..., ascending=False)]: larger keys first,
    missing keys last. *)
Definition descending (x y : float) : bool :=
  match x, y with
  | _, NaN => true
  | NaN, _ => false
  | _, _ => y <=? x
  end.

Definition sort_by_score : DataFrame -> DataFrame :=
  stable_sort
    (fun a b => descending (opportunity_score a) (opportunity_score b)).

(** One dictionary of the list returned by [find_best_investment_dates].
    [opp_date] stands for the date's ['%d-%m-%Y'] rendering. *)
Record opportunity : Type := mkOpportunity {
  opp_date : timestamp;
  opp_nav : float;
  nav_change_percent : float;
  nav_30day_avg : option float;
  opp_score : float;
  recommendation : string
}.

Definition describe (r : row) : opportunity :=
  mkOpportunity (date r)
    (round (nav r) 2)
    (round (nav_change r) 2)
    (if notna (nav_ma_30 r) then Some (round (nav_ma_30 r) 2) else None)
    (round (opportunity_score r) 2)
    (_get_recommendation (opportunity_score r)).

Definition find_best_investment_dates (fetch : service)
    (scheme_code : string) (drop_threshold : float) (days : Z)
  : list opportunity :=
  let df := analyze_nav_trends fetch scheme_code days in
  match df with
  | [] => []
  | _ =>
      let opportunities :=
        filter (fun r => nav_change r <=? drop_threshold) df in
      let opportunities := sort_by_score opportunities in
      map describe opportunities
  end.

Definition _get_strategy_message (multiplier : float) : string :=
  if multiplier >=? Fin 1.5
  then "Market is down significantly - Great buying opportunity!"
  else if multiplier >=? Fin 1.25
  then "Market correction - Good time to invest more"
  else if multiplier <=? Fin 0.85
  then "Market is high - Reduce investment amount"
  else "Market is stable - Continue regular SIP".

(** The dictionary returned by [get_monthly_investment_strategy]. *)
Record monthly_strategy : Type := mkStrategy {
  scheme_code : string;
  current_nav : float;
  previous_nav : float;
  average_nav_30d : float;
  recent_change_percent : float;
  base_sip_amount : float;
  recommended_amount : float;
  multiplier : float;
  units_to_buy : float;
  strategy : string
}.

Inductive advice : Type :=
| EmptyDict
| Strategy (s : monthly_strategy).

Definition get_monthly_investment_strategy (fetch : service)
    (scheme_code : string) (base_amount : float) : result advice :=
  let df := analyze_nav_trends fetch scheme_code 30 in
  match df with
  | [] => Ok EmptyDict
  | _ =>
      latest <- iloc df (-1) ;;
      previous <- iloc df (-2) ;;
      let avg_nav := series_mean (map nav df) in
      let current_nav := nav latest in
      let previous_nav := nav previous in
      let recent_drop := nav_change latest in
      let multiplier :=
        if current_nav <? previous_nav * Fin 0.95 then Fin 1.5
        else if current_nav <? previous_nav * Fin 0.98 then Fin 1.25
        else if current_nav >? previous_nav * Fin 1.02 then Fin 0.85
        else Fin 1.0 in
      let recommended_amount := base_amount * multiplier in
      Ok (Strategy
            (mkStrategy scheme_code
               (round current_nav 2)
               (round previous_nav 2)
               (round avg_nav 2)
               (round recent_drop 2)
               base_amount
               (round recommended_amount 2)
               (round multiplier 2)
               (round (recommended_amount / current_nav) 3)
               (_get_strategy_message multiplier)))
  end.



End EnhancedSIP.

(** * Specification-side definitions *)

Local Open Scope float_scope.

(** Numeric equality of two values: rationals are compared as numbers, not
    as fractions. *)
Definition feq (x y : float) : Prop :=
  match x, y with
  | Fin a, Fin b => (a == b)%Q
  | PInf, PInf | NInf, NInf | NaN, NaN => True
  | _, _ => False
  end.

(** The same number, with its fraction in lowest terms. *)
Definition canon (x : float) : float :=
  match x with
  | Fin a => Fin (Qred a)
  | _ => x
  end.

Definition date_le (a b : timestamp) : Prop := date_leb a b = true.
Definition date_lt (a b : timestamp) : Prop := date_ltb a b = true.
Definition period_lt (p q : period) : Prop := period_ltb p q = true.

(** The ladder of the contribution multiplier as a table: the rows are tried
    in order and the first one whose condition holds gives the multiplier. *)
Definition ladder_rows (price previous_price percent_change : float)
  : list (bool * float) :=
  [ (percent_change <=? Fin (-3.0), Fin 2.0);
    (percent_change <=? Fin (-2.0), Fin 1.5);
    (percent_change <=? Fin (-1.0), Fin 1.25);
    (price <? Fin 0.98 * previous_price, Fin 1.15);
    (price >? Fin 1.02 * previous_price, Fin 0.85) ].

Definition first_match (rows : list (bool * float)) (otherwise : float)
  : float :=
  match find fst rows with
  | Some row => snd row
  | None => otherwise
  end.

(** The row that stands for a group: the first one after sorting by date. *)
Definition representative (group : SIPBacktest.DataFrame)
  : list SIPBacktest.row :=
  match SIPBacktest.sort_by_date group with
  | [] => []
  | r :: _ => [r]
  end.

(** A ledger entry written for row [r]. *)
Definition entry_of (base_amount : float) (strategy : string)
    (r : SIPBacktest.row) (i : SIPBacktest.investment) : Prop :=
  SIPBacktest.inv_date i = SIPBacktest.date r
  /\ SIPBacktest.inv_nav i = SIPBacktest.nav r
  /\ SIPBacktest.inv_nav_change i = SIPBacktest.nav_change r
  /\ SIPBacktest.amount i
     = SIPBacktest.investment_amount base_amount strategy r
  /\ SIPBacktest.units i = SIPBacktest.amount i / SIPBacktest.nav r.

(** Row [r] is an earliest row of month [k] in the frame. *)
Definition earliest_of_month (df : SIPBacktest.DataFrame) (k : period)
    (r : SIPBacktest.row) : Prop :=
  In r df
  /\ SIPBacktest.year_month r = k
  /\ forall r', In r' df -> SIPBacktest.year_month r' = k ->
                date_le (SIPBacktest.date r) (SIPBacktest.date r').

(** The last entry of the ledger carries the running totals. *)
Definition totals_recorded (st : SIPBacktest.ledger) : Prop :=
  forall t l, SIPBacktest.acc_investments st = t ++ [l] ->
              SIPBacktest.inv_total_units l = SIPBacktest.acc_units st
              /\ SIPBacktest.inv_total_invested l
                 = SIPBacktest.acc_invested st.

(** ** Sample inputs *)

Definition history_of (records : list nav_record) : service :=
  fun _ => Some records.

(** Three monthly prices: 100 on 1 January, 97 on 1 February, 103 on
    1 March. *)
Definition scenario : service :=
  history_of [ mkRecord (mkDate 2024 1 1) 100;
               mkRecord (mkDate 2024 2 1) 97;
               mkRecord (mkDate 2024 3 1) 103 ].

Definition scenario_frame : SIPBacktest.DataFrame :=
  SIPBacktest.get_historical_data scenario "scheme" 1000.

(** Two months of prices, to be run with a base amount of zero. *)
Definition two_months : service :=
  history_of [ mkRecord (mkDate 2024 1 1) 100;
               mkRecord (mkDate 2024 2 1) 110 ].

Definition two_months_frame : SIPBacktest.DataFrame :=
  SIPBacktest.get_historical_data two_months "scheme" 1000.

(** A power function to run the model with; the statements that use it do
    not depend on its values. *)
Definition no_pow : Q -> Q -> float := fun _ _ => NaN.

(** The previous price as the simulator reconstructs it. *)
Definition reconstructed_previous_price (price percent_change : float)
  : float :=
  price / (Fin 1 + percent_change / Fin 100).

(** The multiplier of the variable strategy: 1.0 when the percent change is
    undefined, else the ladder on the reconstructed previous price. *)
Definition specified_multiplier (price percent_change : float) : float :=
  match percent_change with
  | NaN => Fin 1.0
  | _ =>
      first_match
        (ladder_rows price
           (reconstructed_previous_price price percent_change)
           percent_change)
        (Fin 1.0)
  end.

Definition specified_amount (variable : bool)
    (base price percent_change : float) : float :=
  if variable then base * specified_multiplier price percent_change
  else base.

(** The rolling-return point for index [i] and window [w], in the words of
    the calculator's description: sums over contributions[i-w, i), the price
    of contribution i-1, and a return that is 0 unless something was
    invested. *)
Definition rolling_point_at (contributions : list SIPBacktest.investment)
    (w i : Z) (p : SIPBacktest.rolling_return) : Prop :=
  exists previous,
    iloc contributions (i - 1) = Ok previous
    /\ let window :=
         firstn (Z.to_nat w) (skipn (Z.to_nat (i - w)) contributions) in
       SIPBacktest.invested p
       = series_sum (map SIPBacktest.amount window)
       /\ SIPBacktest.value p
          = series_sum (map SIPBacktest.units window)
            * SIPBacktest.inv_nav previous
       /\ SIPBacktest.rr_date p = SIPBacktest.inv_date previous
       /\ SIPBacktest.rr_return_percent p
          = if SIPBacktest.invested p >? Fin 0
            then (SIPBacktest.value p - SIPBacktest.invested p)
                 / SIPBacktest.invested p * Fin 100
            else Fin 0.

(** The window return as described: (value - invested) / invested x 100,
    with 0 as the fallback when invested is 0. *)
Definition return_with_zero_fallback (invested value : float) : float :=
  match invested with
  | Fin a =>
      if Qis_zero a then Fin 0
      else (value - invested) / invested * Fin 100
  | _ => (value - invested) / invested * Fin 100
  end.

(** A service whose request fails. *)
Definition no_data : service := fun _ => None.

(** Two raw records for the same day. *)
Definition repeated_date : service :=
  history_of [ mkRecord (mkDate 2024 1 1) 100;
               mkRecord (mkDate 2024 1 1) 101 ].

(** A drop of 2.346 percent on the second day. *)
Definition small_drop : service :=
  history_of [ mkRecord (mkDate 2024 1 1) 100;
               mkRecord (mkDate 2024 1 2) 97.654 ].

(** Drops of 2.346 and then 2.349 percent, both reported as 2.35. *)
Definition two_close_drops : service :=
  history_of [ mkRecord (mkDate 2024 1 1) 100;
               mkRecord (mkDate 2024 1 2) 97.654;
               mkRecord (mkDate 2024 1 3) 100;
               mkRecord (mkDate 2024 1 4) 97.651 ].

(** A history of one record. *)
Definition single_point : service :=
  history_of [ mkRecord (mkDate 2024 1 1) 100 ].

(** ** Further specification-side definitions *)

(** The changes of a column, each value against the one before it, the first
    against [p]. *)
Fixpoint changes_from (p : float) (xs : list float) : list float :=
  match xs with
  | [] => []
  | x :: t => (x / p - Fin 1) :: changes_from x t
  end.

(** A raw record as a dated price. *)
Definition dated_price (r : nav_record) : timestamp * float :=
  (rec_date r, Fin (rec_nav r)).

(** Every ledger entry carries the totals of the entries up to and including
    itself. *)
Definition running_totals (st : SIPBacktest.ledger) : Prop :=
  forall k i,
    nth_error (SIPBacktest.acc_investments st) k = Some i ->
    SIPBacktest.inv_total_units i
    = sum (map SIPBacktest.units
             (firstn (S k) (SIPBacktest.acc_investments st)))
    /\ SIPBacktest.inv_total_invested i
       = sum (map SIPBacktest.amount
                (firstn (S k) (SIPBacktest.acc_investments st))).

(** The ledger's totals are the sums of its entries, and so are the totals
    recorded in each entry. *)
Definition ledger_consistent (st : SIPBacktest.ledger) : Prop :=
  SIPBacktest.acc_units st
  = sum (map SIPBacktest.units (SIPBacktest.acc_investments st))
  /\ SIPBacktest.acc_invested st
     = sum (map SIPBacktest.amount (SIPBacktest.acc_investments st))
  /\ running_totals st.

(** The date, price and percent change of a contribution. *)
Definition purchase_point (i : SIPBacktest.investment)
  : timestamp * float * float :=
  (SIPBacktest.inv_date i, SIPBacktest.inv_nav i,
   SIPBacktest.inv_nav_change i).

(** The multipliers of the monthly strategy, each with its message. *)
Definition monthly_tiers : list (float * string) :=
  [ (Fin 1.5, "Market is down significantly - Great buying opportunity!");
    (Fin 1.25, "Market correction - Good time to invest more");
    (Fin 0.85, "Market is high - Reduce investment amount");
    (Fin 1.0, "Market is stable - Continue regular SIP") ]%string.

(** A catalogue of one scheme. *)
Definition one_scheme : list scheme :=
  [ mkScheme "100" "Sample Flexi Cap Fund" ]%string.

(** * Properties *)

(** ** Arithmetic *)

Lemma fmul_comm (x y : float) : x * y = y * x.
Proof.
  destruct x as [a| | |], y as [b| | |]; simpl; try reflexivity.
  f_equal. unfold Qmult. simpl. f_equal; [apply Z.mul_comm|apply Pos.mul_comm].
Qed.

(** Without missing values the sum of a column is the plain sum. *)
Lemma series_sum_all_present (xs : list float) :
  Forall (fun x => notna x = true) xs -> series_sum xs = sum xs.
Proof.
  intro H. unfold series_sum. f_equal.
  induction H as [|x t Hx _ IH]; simpl; [reflexivity|].
  now rewrite Hx, IH.
Qed.

(** ** Sorting *)

Section SortFacts.
Context {A : Type}.
Variable leb : A -> A -> bool.

Lemma insert_perm (x : A) (l : list A) : Permutation (x :: l) (insert leb x l).
Proof.
  induction l as [|y t IH]; simpl.
  - apply Permutation_refl.
  - destruct (leb x y).
    + apply Permutation_refl.
    + eapply perm_trans; [apply perm_swap|]. now apply perm_skip.
Qed.

Lemma stable_sort_perm (l : list A) : Permutation l (stable_sort leb l).
Proof.
  induction l as [|x t IH]; simpl.
  - constructor.
  - eapply perm_trans; [apply perm_skip, IH|]. apply insert_perm.
Qed.

Lemma stable_sort_in (l : list A) (x : A) : In x (stable_sort leb l) <-> In x l.
Proof.
  split; intro H.
  - eapply Permutation_in; [apply Permutation_sym, stable_sort_perm|exact H].
  - eapply Permutation_in; [apply stable_sort_perm|exact H].
Qed.

Lemma stable_sort_nil (l : list A) : stable_sort leb l = [] -> l = [].
Proof.
  intro H. apply Permutation_nil. rewrite <- H. apply Permutation_sym, stable_sort_perm.
Qed.

Hypothesis leb_total : forall a b, leb a b = true \/ leb b a = true.
Hypothesis leb_trans : forall a b c, leb a b = true -> leb b c = true -> leb a c = true.

Let le (a b : A) : Prop := leb a b = true.

Lemma insert_sorted (x : A) (l : list A) :
  StronglySorted le l -> StronglySorted le (insert leb x l).
Proof.
  induction 1 as [|y t Hs IH Hall]; simpl.
  - repeat constructor.
  - destruct (leb x y) eqn:E.
    + constructor; [now constructor|].
      constructor; [exact E|].
      eapply Forall_impl; [|exact Hall]. intros z Hz. unfold le. eapply leb_trans; eassumption.
    + constructor; [exact IH|].
      eapply Permutation_Forall; [apply insert_perm|].
      constructor; [|exact Hall].
      destruct (leb_total x y) as [H|H]; [congruence|exact H].
Qed.

Lemma stable_sort_sorted (l : list A) : StronglySorted le (stable_sort leb l).
Proof.
  induction l as [|x t IH]; simpl; [constructor|now apply insert_sorted].
Qed.

(** The first row of a sorted frame is minimal. *)
Lemma stable_sort_head (l : list A) (x : A) (t : list A) :
  stable_sort leb l = x :: t -> In x l /\ forall y, In y l -> leb x y = true.
Proof.
  intro E. split.
  - apply stable_sort_in. rewrite E. now left.
  - intros y Hy. apply stable_sort_in in Hy. rewrite E in Hy.
    pose proof (stable_sort_sorted l) as Hs. rewrite E in Hs.
    inversion Hs as [|? ? _ Hall]; subst.
    destruct Hy as [->|Hy].
    + destruct (leb_total y y); assumption.
    + rewrite Forall_forall in Hall. now apply Hall.
Qed.
End SortFacts.

(** ** Dates and months *)

Ltac to_prop :=
  repeat rewrite ?orb_true_iff, ?andb_true_iff, ?negb_true_iff,
    ?andb_false_iff, ?orb_false_iff, ?Z.ltb_lt, ?Z.leb_le, ?Z.eqb_eq,
    ?Z.eqb_neq, ?Z.ltb_ge, ?Z.leb_gt in *.

Lemma date_leb_total (a b : timestamp) :
  date_leb a b = true \/ date_leb b a = true.
Proof. destruct a, b. unfold date_leb. simpl. to_prop. lia. Qed.

Lemma date_leb_trans (a b c : timestamp) :
  date_leb a b = true -> date_leb b c = true -> date_leb a c = true.
Proof. destruct a, b, c. unfold date_leb. simpl. to_prop. lia. Qed.

Lemma date_eqb_eq (a b : timestamp) : date_eqb a b = true <-> a = b.
Proof.
  destruct a, b. unfold date_eqb. simpl. to_prop. split.
  - intros [[-> ->] ->]. reflexivity.
  - intros [= -> -> ->]. auto.
Qed.

Lemma date_leb_antisym (a b : timestamp) :
  date_leb a b = true -> date_leb b a = true -> a = b.
Proof.
  intros H1 H2. apply date_eqb_eq. destruct a, b.
  unfold date_leb, date_eqb in *. simpl in *. to_prop. lia.
Qed.

Lemma date_ltb_spec (a b : timestamp) :
  date_ltb a b = true <-> date_leb a b = true /\ a <> b.
Proof.
  unfold date_ltb. rewrite andb_true_iff, negb_true_iff.
  split; intros [H1 H2]; split; try assumption.
  - intro E. apply date_eqb_eq in E. congruence.
  - destruct (date_eqb a b) eqn:E; [|reflexivity].
    apply date_eqb_eq in E. contradiction.
Qed.

Lemma period_eqb_eq (p q : period) : period_eqb p q = true <-> p = q.
Proof.
  destruct p, q. unfold period_eqb. simpl. to_prop. split.
  - intros [-> ->]. reflexivity.
  - intros [= -> ->]. auto.
Qed.

Lemma period_eqb_refl (p : period) : period_eqb p p = true.
Proof. now apply period_eqb_eq. Qed.

Lemma period_ltb_spec (p q : period) :
  period_ltb p q = true <-> period_leb p q = true /\ p <> q.
Proof.
  unfold period_ltb. rewrite andb_true_iff, negb_true_iff.
  split; intros [H1 H2]; split; try assumption.
  - intro E. apply period_eqb_eq in E. congruence.
  - destruct (period_eqb p q) eqn:E; [|reflexivity].
    apply period_eqb_eq in E. contradiction.
Qed.

Lemma period_ltb_trans (p q r : period) :
  period_ltb p q = true -> period_ltb q r = true -> period_ltb p r = true.
Proof.
  destruct p, q, r. unfold period_ltb, period_leb, period_eqb. simpl.
  to_prop. lia.
Qed.

Lemma period_ltb_irrefl (p : period) : period_ltb p p = false.
Proof.
  unfold period_ltb. rewrite period_eqb_refl. apply andb_false_r.
Qed.

(** A list sorted by [<=] without repetitions is sorted by [<]. *)
Lemma sorted_nodup_strict (l : list timestamp) :
  StronglySorted date_le l -> NoDup l -> StronglySorted date_lt l.
Proof.
  induction 1 as [|a t Hs IH Hall]; intro Hnd; [constructor|].
  inversion Hnd as [|? ? Hnotin Hnd']; subst.
  constructor; [now apply IH|].
  rewrite Forall_forall in *. intros b Hb.
  apply date_ltb_spec. split; [now apply Hall|].
  intros ->. contradiction.
Qed.

Lemma strict_sorted_nodup (l : list timestamp) :
  StronglySorted date_lt l -> NoDup l.
Proof.
  induction 1 as [|a t Hs IH Hall]; constructor; [|exact IH].
  intro Hin. rewrite Forall_forall in Hall. specialize (Hall a Hin).
  apply date_ltb_spec in Hall. now destruct Hall.
Qed.

(** ** Frames *)

Lemma map_fst_combine {A B : Type} (l : list A) (l' : list B) :
  (List.length l <= List.length l')%nat -> map fst (combine l l') = l.
Proof.
  revert l'. induction l as [|a t IH]; intros [|b t'] H; simpl in *;
    try reflexivity; try lia.
  f_equal. apply IH. lia.
Qed.

Lemma length_removelast {A : Type} (l : list A) :
  List.length (removelast l) = pred (List.length l).
Proof.
  induction l as [|a [|b t] IH]; try reflexivity.
  change (removelast (a :: b :: t)) with (a :: removelast (b :: t)).
  simpl List.length in *. now rewrite IH.
Qed.

Lemma length_shift (xs : list float) :
  List.length (shift xs) = List.length xs.
Proof.
  destruct xs as [|x t]; [reflexivity|].
  unfold shift.
  change (List.length (NaN :: removelast (x :: t)))
    with (S (List.length (removelast (x :: t)))).
  now rewrite length_removelast.
Qed.

Lemma length_pct_change (xs : list float) :
  List.length (pct_change xs) = List.length xs.
Proof.
  unfold pct_change. rewrite length_map, length_combine, length_shift. lia.
Qed.

Lemma length_rolling_mean (w : nat) (xs : list float) :
  List.length (rolling_mean w xs) = List.length xs.
Proof. unfold rolling_mean. now rewrite length_map, length_seq. Qed.

Lemma backtest_frame_dates (records : list nav_record) :
  map SIPBacktest.date (SIPBacktest.make_frame records)
  = map rec_date records.
Proof.
  unfold SIPBacktest.make_frame. rewrite map_map. simpl.
  rewrite <- (map_map fst rec_date). f_equal. apply map_fst_combine.
  rewrite length_combine, length_map, length_pct_change,
    length_rolling_mean, !length_map. lia.
Qed.

Lemma enhanced_frame_dates (records : list nav_record) :
  map EnhancedSIP.date (EnhancedSIP.make_frame records)
  = map rec_date records.
Proof.
  unfold EnhancedSIP.make_frame. rewrite map_map. simpl.
  rewrite <- (map_map fst rec_date). f_equal. apply map_fst_combine.
  rewrite !length_combine, length_map, length_pct_change,
    !length_rolling_mean, !length_map. lia.
Qed.

Lemma sort_records_dates_sorted (records : list nav_record) :
  StronglySorted date_le (map rec_date (sort_records records)).
Proof.
  unfold sort_records.
  pose proof (stable_sort_sorted
                (fun a b => date_leb (rec_date a) (rec_date b))
                (fun a b => date_leb_total (rec_date a) (rec_date b))
                (fun a b c => @date_leb_trans (rec_date a) (rec_date b)
                                (rec_date c))
                records) as Hs.
  induction Hs as [|a t Hs IH Hall]; simpl; constructor; [exact IH|].
  rewrite Forall_forall in *. intros d Hd.
  apply in_map_iff in Hd. destruct Hd as [r [<- Hr]]. now apply Hall.
Qed.

Lemma sort_records_dates_perm (records : list nav_record) :
  Permutation (map rec_date (sort_records records)) (map rec_date records).
Proof.
  apply Permutation_map, Permutation_sym, stable_sort_perm.
Qed.

(** ** Python sequences *)

Lemma iloc_last {A : Type} (l : list A) (a : A) :
  iloc (l ++ [a]) (-1) = Ok a.
Proof.
  unfold iloc, len. rewrite length_app. simpl List.length.
  change (-1 <? 0)%Z with true. cbv iota.
  replace (Z.of_nat (List.length l + 1) + -1)%Z
    with (Z.of_nat (List.length l)) by lia.
  destruct (Z.of_nat (List.length l) <? 0)%Z eqn:E; [to_prop; lia|].
  rewrite Nat2Z.id, nth_error_app2, Nat.sub_diag by lia. reflexivity.
Qed.

Lemma iloc_last_ok {A : Type} (l : list A) :
  l <> [] -> exists a, iloc l (-1) = Ok a /\ In a l.
Proof.
  intro H. destruct (exists_last H) as [t [a ->]].
  exists a. split; [apply iloc_last|]. apply in_or_app. right. now left.
Qed.

Lemma iloc_first_ok {A : Type} (l : list A) :
  l <> [] -> exists a, iloc l 0 = Ok a /\ In a l.
Proof.
  destruct l as [|a t]; [congruence|]. intros _. exists a.
  split; [reflexivity|now left].
Qed.

(** ** The monthly groups *)

Section Groups.
Import SIPBacktest.

Lemma period_cases (k h : period) :
  period_eqb k h = false -> period_leb k h = false -> period_ltb h k = true.
Proof.
  destruct k, h. unfold period_ltb, period_leb, period_eqb. simpl.
  to_prop. lia.
Qed.

Lemma insert_key_in (k : period) (ks : list period) (x : period) :
  In x (insert_key k ks) <-> x = k \/ In x ks.
Proof.
  induction ks as [|h t IH]; simpl.
  - intuition.
  - destruct (period_eqb k h) eqn:E.
    + apply period_eqb_eq in E. subst. simpl. intuition.
    + destruct (period_leb k h); simpl; [intuition|].
      rewrite IH. intuition.
Qed.

Lemma insert_key_sorted (k : period) (ks : list period) :
  StronglySorted period_lt ks -> StronglySorted period_lt (insert_key k ks).
Proof.
  induction 1 as [|h t Hs IH Hall]; simpl.
  - repeat constructor.
  - destruct (period_eqb k h) eqn:E; [now constructor|].
    destruct (period_leb k h) eqn:L.
    + assert (Hkh : period_lt k h).
      { unfold period_lt, period_ltb. now rewrite L, E. }
      constructor; [now constructor|].
      constructor; [exact Hkh|].
      eapply Forall_impl; [|exact Hall].
      intros z Hz. unfold period_lt in *. eapply period_ltb_trans; eassumption.
    + constructor; [exact IH|].
      rewrite Forall_forall in *. intros z Hz.
      apply insert_key_in in Hz. destruct Hz as [->|Hz].
      * now apply period_cases.
      * now apply Hall.
Qed.

Lemma group_keys_sorted (df : DataFrame) :
  StronglySorted period_lt (group_keys df).
Proof.
  unfold group_keys. induction df as [|r t IH]; simpl.
  - constructor.
  - now apply insert_key_sorted.
Qed.

Lemma group_keys_in (df : DataFrame) (k : period) :
  In k (group_keys df) <-> exists r, In r df /\ year_month r = k.
Proof.
  unfold group_keys. induction df as [|r t IH]; simpl.
  - split; [contradiction|]. now intros [r [[] _]].
  - rewrite insert_key_in, IH. split.
    + intros [->|[r' [Hin E]]]; eauto.
    + intros [r' [[->|Hin] E]]; [now left|]. right. eauto.
Qed.

Lemma strict_periods_nodup (ks : list period) :
  StronglySorted period_lt ks -> NoDup ks.
Proof.
  induction 1 as [|a t Hs IH Hall]; constructor; [|exact IH].
  intro Hin. rewrite Forall_forall in Hall. specialize (Hall a Hin).
  unfold period_lt in Hall. now rewrite period_ltb_irrefl in Hall.
Qed.

(** The group of a month that occurs in the frame has an earliest row. *)
Lemma representative_of_group (df : DataFrame) (k : period) :
  (exists r, In r df /\ year_month r = k) ->
  exists r,
    representative (filter (fun r => period_eqb (year_month r) k) df) = [r]
    /\ earliest_of_month df k r.
Proof.
  intros [r0 [Hin0 E0]]. unfold representative.
  set (group := filter (fun r => period_eqb (year_month r) k) df).
  destruct (sort_by_date group) as [|r t] eqn:Es.
  - apply stable_sort_nil in Es.
    assert (Hg : In r0 group).
    { apply filter_In. split; [exact Hin0|]. now apply period_eqb_eq. }
    rewrite Es in Hg. contradiction.
  - exists r. split; [reflexivity|].
    destruct (stable_sort_head
                (fun a b => date_leb (date a) (date b))
                (fun a b => date_leb_total (date a) (date b))
                (fun a b c => @date_leb_trans (date a) (date b) (date c))
                group r t Es) as [Hin Hmin].
    apply filter_In in Hin. destruct Hin as [Hin Hk].
    apply period_eqb_eq in Hk.
    split; [exact Hin|]. split; [exact Hk|].
    intros r' Hin' Hk'. apply Hmin. apply filter_In.
    split; [exact Hin'|]. now apply period_eqb_eq.
Qed.

(** One representative per group, in the order of the groups. *)
Lemma representatives_of_groups (df : DataFrame) :
  Forall2 (earliest_of_month df) (group_keys df)
    (flat_map representative (map snd (groupby_year_month df))).
Proof.
  unfold groupby_year_month. rewrite map_map. simpl.
  assert (H : forall k, In k (group_keys df) ->
                        exists r, In r df /\ year_month r = k).
  { intros k. apply group_keys_in. }
  induction (group_keys df) as [|k ks IH]; simpl.
  - constructor.
  - destruct (representative_of_group df k) as [r [-> Hr]].
    { apply H. now left. }
    simpl. constructor; [exact Hr|]. apply IH.
    intros k' Hk'. apply H. now right.
Qed.
End Groups.

(** ** The ledger of the simulation loop *)

Section Ledger.
Import SIPBacktest.
Variable base_amount : float.
Variable strategy : string.

Lemma invest_step (st : ledger) (group : DataFrame) :
  exists new,
    acc_investments (invest base_amount strategy st group)
    = acc_investments st ++ new
    /\ Forall2 (entry_of base_amount strategy) (representative group) new
    /\ acc_units (invest base_amount strategy st group)
       = fold_left fadd (map units new) (acc_units st)
    /\ acc_invested (invest base_amount strategy st group)
       = fold_left fadd (map amount new) (acc_invested st)
    /\ (totals_recorded st ->
        totals_recorded (invest base_amount strategy st group)).
Proof.
  unfold invest, representative.
  destruct (sort_by_date group) as [|r t].
  - exists []. rewrite app_nil_r. simpl.
    split; [reflexivity|]. split; [constructor|]. auto.
  - eexists [_]. cbn [acc_investments acc_units acc_invested].
    split; [reflexivity|]. split.
    + constructor; [|constructor]. unfold entry_of. cbn. repeat split.
    + split; [reflexivity|]. split; [reflexivity|].
      intros _ t' l E. apply app_inj_tail in E. destruct E as [_ <-].
      cbn. split; reflexivity.
Qed.

Lemma invest_fold (groups : list DataFrame) :
  forall st,
  exists new,
    acc_investments (fold_left (invest base_amount strategy) groups st)
    = acc_investments st ++ new
    /\ Forall2 (entry_of base_amount strategy)
         (flat_map representative groups) new
    /\ acc_units (fold_left (invest base_amount strategy) groups st)
       = fold_left fadd (map units new) (acc_units st)
    /\ acc_invested (fold_left (invest base_amount strategy) groups st)
       = fold_left fadd (map amount new) (acc_invested st)
    /\ (totals_recorded st ->
        totals_recorded (fold_left (invest base_amount strategy) groups st)).
Proof.
  induction groups as [|g gs IH]; intro st; simpl.
  - exists []. rewrite app_nil_r. simpl.
    split; [reflexivity|]. split; [constructor|]. auto.
  - destruct (invest_step st g) as [new1 [E1 [F1 [U1 [I1 T1]]]]].
    destruct (IH (invest base_amount strategy st g))
      as [new2 [E2 [F2 [U2 [I2 T2]]]]].
    exists (new1 ++ new2).
    rewrite E2, E1, <- app_assoc. split; [reflexivity|].
    split; [now apply Forall2_app|].
    rewrite !map_app, !fold_left_app, <- U1, <- I1. auto.
Qed.

(** The ledger after the loop: one entry per monthly group, written for the
    group's earliest row, and totals that are the sums of the entries. *)
Lemma run_investments_spec (df : DataFrame) :
  let st := run_investments base_amount strategy df in
  Forall2 (entry_of base_amount strategy)
    (flat_map representative (map snd (groupby_year_month df)))
    (acc_investments st)
  /\ acc_units st = sum (map units (acc_investments st))
  /\ acc_invested st = sum (map amount (acc_investments st))
  /\ totals_recorded st.
Proof.
  unfold run_investments.
  destruct (invest_fold (map snd (groupby_year_month df))
              (mkLedger (Fin 0) (Fin 0) []))
    as [new [E [F [U [I T]]]]].
  simpl in E, U, I. cbv zeta. rewrite E. unfold sum.
  split; [exact F|]. split; [exact U|]. split; [exact I|].
  apply T. intros t l Hnil. simpl in Hnil. now destruct t.
Qed.

(** The ledger entries, matched with the months of the frame. *)
Lemma ledger_months (df : DataFrame) :
  Forall2 (fun k i => exists r, earliest_of_month df k r
                                /\ entry_of base_amount strategy r i)
    (group_keys df)
    (acc_investments (run_investments base_amount strategy df)).
Proof.
  destruct (run_investments_spec df) as [F _].
  pose proof (representatives_of_groups df) as G.
  revert F. generalize (acc_investments
                          (run_investments base_amount strategy df)).
  induction G as [|k r ks rs Hkr G IH]; intros invs F.
  - inversion F. constructor.
  - inversion F as [|? i ? invs' Hri F']; subst.
    constructor; [eauto|]. now apply IH.
Qed.

Lemma ledger_month_list (df : DataFrame) :
  map (fun i => to_period (inv_date i))
    (acc_investments (run_investments base_amount strategy df))
  = group_keys df.
Proof.
  induction (ledger_months df) as [|k i ks invs [r [[_ [Hk _]] [Hd _]]] _ IH];
    simpl; [reflexivity|].
  rewrite IH, Hd. f_equal. exact Hk.
Qed.

Lemma ledger_entry (df : DataFrame) (i : investment) :
  In i (acc_investments (run_investments base_amount strategy df)) ->
  exists k r, earliest_of_month df k r /\ entry_of base_amount strategy r i.
Proof.
  induction (ledger_months df) as [|k i' ks invs Hki _ IH]; simpl.
  - contradiction.
  - intros [<-|Hin]; [|now apply IH].
    destruct Hki as [r Hr]. eauto.
Qed.
End Ledger.

(** ** The simulator *)

Section Simulator.
Import SIPBacktest.

Lemma ladder_first_match (price previous_price percent_change : float) :
  calculate_enhanced_multiplier price previous_price percent_change
  = first_match (ladder_rows price previous_price percent_change) (Fin 1.0).
Proof.
  unfold calculate_enhanced_multiplier, first_match, ladder_rows.
  rewrite (fmul_comm (Fin 0.98) previous_price),
    (fmul_comm (Fin 1.02) previous_price).
  cbn [find fst snd].
  repeat match goal with
         | |- context [if ?c then _ else _] => destruct c
         end; reflexivity.
Qed.

(** C1: the contribution multiplier is the first matching row of the ladder
    (2.0, 1.5, 1.25 on the percent change, then 1.15 and 0.85 on the price
    against the previous price, else 1.0); a change of -3.5 gives 2.0
    whatever the two prices are. *)
Theorem multiplier_is_first_matching_row :
  (forall price previous_price percent_change,
      calculate_enhanced_multiplier price previous_price percent_change
      = first_match (ladder_rows price previous_price percent_change)
          (Fin 1.0))
  /\ (forall price previous_price,
         calculate_enhanced_multiplier price previous_price (Fin (-3.5))
         = Fin 2.0).
Proof.
  split.
  - apply ladder_first_match.
  - intros price prev. reflexivity.
Qed.

(** On a non-empty frame the simulator returns, and its summary is computed
    from the ledger and the first and last rows. *)
Lemma simulate_sip_fields (real_pow : Q -> Q -> float) (df : DataFrame)
    (base_amount : float) (strategy : string) :
  df <> [] ->
  exists sim first_row last_row,
    simulate_sip real_pow df base_amount strategy = Ok sim
    /\ iloc df 0 = Ok first_row
    /\ iloc df (-1) = Ok last_row
    /\ let st := run_investments base_amount strategy df in
       let value := acc_units st * nav last_row in
       let years :=
         Fin (inject_Z (days_between (date first_row) (date last_row)))
         / Fin 365.25 in
       investments sim = acc_investments st
       /\ num_investments sim = List.length (acc_investments st)
       /\ total_invested sim = round (acc_invested st) 2
       /\ total_units sim = round (acc_units st) 3
       /\ final_value sim = round value 2
       /\ absolute_return sim = round (value - acc_invested st) 2
       /\ return_percent sim
          = round (if acc_invested st >? Fin 0
                   then (value - acc_invested st) / acc_invested st
                        * Fin 100
                   else Fin 0) 2
       /\ cagr sim
          = round (if years >? Fin 0
                   then (pow real_pow (value / acc_invested st)
                           (Fin 1 / years) - Fin 1) * Fin 100
                   else Fin 0) 2.
Proof.
  intro Hne.
  destruct (iloc_first_ok df Hne) as [first_row [Hf _]].
  destruct (iloc_last_ok df Hne) as [last_row [Hl _]].
  unfold simulate_sip. rewrite Hl, Hf.
  destruct df as [|r t]; [congruence|]. cbn [bind].
  eexists. exists first_row, last_row.
  split; [reflexivity|]. split; [reflexivity|]. split; [reflexivity|].
  cbn. repeat split.
Qed.

Lemma ledger_nonempty (df : DataFrame) (base_amount : float)
    (strategy : string) :
  df <> [] -> acc_investments (run_investments base_amount strategy df) <> [].
Proof.
  intros Hne E.
  pose proof (ledger_month_list base_amount strategy df) as M.
  rewrite E in M. simpl in M.
  destruct df as [|r t]; [congruence|].
  assert (Hin : In (year_month r) (group_keys (r :: t))).
  { apply group_keys_in. exists r. split; [now left|reflexivity]. }
  rewrite <- M in Hin. contradiction.
Qed.

(** C2: on a non-empty series the simulator writes exactly one contribution
    per calendar month that has a point, for an earliest-dated point of that
    month, and none for a month without points. *)
Theorem one_contribution_per_month (real_pow : Q -> Q -> float)
    (df : DataFrame) (base_amount : float) (strategy : string) :
  df <> [] ->
  exists sim,
    simulate_sip real_pow df base_amount strategy = Ok sim
    /\ let months := map (fun i => to_period (inv_date i)) (investments sim) in
       NoDup months
       /\ StronglySorted period_lt months
       /\ (forall m, In m months <-> exists r, In r df /\ year_month r = m)
       /\ (forall i, In i (investments sim) ->
             exists r, In r df
                       /\ inv_date i = date r
                       /\ inv_nav i = nav r
                       /\ forall r', In r' df ->
                                     year_month r' = year_month r ->
                                     date_le (date r) (date r'))
       /\ num_investments sim = List.length months.
Proof.
  intro Hne.
  destruct (simulate_sip_fields real_pow df base_amount strategy Hne)
    as [sim [fr [lr [E [_ [_ [Hinv [Hnum _]]]]]]]].
  exists sim. split; [exact E|]. cbv zeta.
  rewrite Hinv, Hnum, ledger_month_list.
  split; [apply strict_periods_nodup, group_keys_sorted|].
  split; [apply group_keys_sorted|].
  split; [apply group_keys_in|].
  split.
  - intros i Hi.
    destruct (ledger_entry base_amount strategy df i Hi)
      as [k [r [[Hin [Hk Hmin]] [Hd [Hn _]]]]].
    exists r. split; [exact Hin|]. split; [exact Hd|]. split; [exact Hn|].
    intros r' Hin' Hk'. apply Hmin; [exact Hin'|]. now rewrite Hk'.
  - rewrite <- (ledger_month_list base_amount strategy df).
    now rewrite length_map.
Qed.

Lemma one_contribution_per_month_witness :
  exists sim,
    simulate_sip no_pow scenario_frame (Fin 1000) "regular" = Ok sim
    /\ NoDup (map (fun i => to_period (inv_date i)) (investments sim)).
Proof.
  destruct (one_contribution_per_month no_pow scenario_frame (Fin 1000) "regular")
    as [sim [E [H _]]].
  - vm_compute. discriminate.
  - exists sim. split; assumption.
Defined.

Lemma investment_amount_spec (base_amount : float) (strategy : string)
    (r : row) :
  investment_amount base_amount strategy r
  = specified_amount (String.eqb strategy "enhanced") base_amount
      (nav r) (nav_change r).
Proof.
  unfold investment_amount, specified_amount, specified_multiplier,
    reconstructed_previous_price.
  destruct (String.eqb strategy "enhanced"); [|reflexivity].
  destruct (nav_change r); cbn [notna]; try reflexivity;
    now rewrite ladder_first_match.
Qed.

(** C3: every contribution of the variable strategy is the base amount times
    the ladder's multiplier, with the previous price reconstructed as
    price / (1 + percentChange/100), and times 1.0 when the percent change is
    undefined; every contribution of a fixed strategy is the base amount.
    On the prices 100, 97, 103 with base 1000 the variable contributions are
    1000, 2000 and 850. *)
Theorem contribution_amount_by_strategy :
  (forall real_pow df base_amount strategy,
      df <> [] ->
      exists sim,
        simulate_sip real_pow df base_amount strategy = Ok sim
        /\ forall i, In i (investments sim) ->
             (exists r, In r df /\ inv_date i = date r /\ inv_nav i = nav r
                        /\ inv_nav_change i = nav_change r)
             /\ amount i
                = specified_amount (String.eqb strategy "enhanced")
                    base_amount (inv_nav i) (inv_nav_change i))
  /\ (forall real_pow,
         exists sim,
           simulate_sip real_pow scenario_frame (Fin 1000) "enhanced" = Ok sim
           /\ map (fun i => canon (amount i)) (investments sim)
              = [Fin 1000; Fin 2000; Fin 850]).
Proof.
  split.
  - intros real_pow df base_amount strategy Hne.
    destruct (simulate_sip_fields real_pow df base_amount strategy Hne)
      as [sim [fr [lr [E [_ [_ [Hinv _]]]]]]].
    exists sim. split; [exact E|]. rewrite Hinv. intros i Hi.
    destruct (ledger_entry base_amount strategy df i Hi)
      as [k [r [[Hin _] [Hd [Hn [Hc [Ha _]]]]]]].
    split; [now exists r|].
    now rewrite Ha, Hn, Hc, investment_amount_spec.
  - intro real_pow. eexists. split; [vm_compute; reflexivity|].
    vm_compute. reflexivity.
Qed.

Lemma contribution_amount_by_strategy_witness :
  exists sim,
    simulate_sip no_pow scenario_frame (Fin 1000) "regular" = Ok sim
    /\ forall i, In i (investments sim) -> amount i = Fin 1000.
Proof.
  destruct contribution_amount_by_strategy as [H _].
  destruct (H no_pow scenario_frame (Fin 1000) "regular"%string) as [sim [E Hi]].
  - vm_compute. discriminate.
  - exists sim. split; [exact E|]. intros i Hin.
    destruct (Hi i Hin) as [_ Ha]. exact Ha.
Defined.

(** C5, as stated, fails: the summary rounds its totals, so [total_units] is
    not the sum of the units of the contributions.  On the prices 100, 97,
    103 with base 1000 the sum is 30.0180..., the summary says 30.018. *)
Lemma rounded_total_is_not_the_sum :
  ~ (forall real_pow df base_amount strategy sim,
        simulate_sip real_pow df base_amount strategy = Ok sim ->
        feq (total_units sim) (sum (map units (investments sim)))
        /\ forall l, iloc (investments sim) (-1) = Ok l ->
                     feq (inv_total_units l) (total_units sim)
                     /\ feq (inv_total_invested l) (total_invested sim)).
Proof.
  intro H.
  destruct (H no_pow scenario_frame (Fin 1000) "regular"%string _ eq_refl)
    as [Hsum _].
  vm_compute in Hsum. discriminate Hsum.
Qed.

(** C5, amended: the summary's [total_units] and [total_invested] are the
    sums of the contributions' units and amounts rounded to 3 and 2 decimals,
    and the last contribution carries the unrounded sums. *)
Theorem totals_are_rounded_sums (real_pow : Q -> Q -> float)
    (df : DataFrame) (base_amount : float) (strategy : string) :
  df <> [] ->
  exists sim,
    simulate_sip real_pow df base_amount strategy = Ok sim
    /\ total_units sim = round (sum (map units (investments sim))) 3
    /\ total_invested sim = round (sum (map amount (investments sim))) 2
    /\ exists l,
         iloc (investments sim) (-1) = Ok l
         /\ inv_total_units l = sum (map units (investments sim))
         /\ inv_total_invested l = sum (map amount (investments sim)).
Proof.
  intro Hne.
  destruct (simulate_sip_fields real_pow df base_amount strategy Hne)
    as [sim [fr [lr [E [_ [_ [Hinv [_ [Hti [Htu _]]]]]]]]]].
  destruct (run_investments_spec base_amount strategy df)
    as [_ [Hu [Ha Ht]]].
  exists sim. split; [exact E|].
  rewrite Htu, Hti, Hinv, <- Hu, <- Ha.
  split; [reflexivity|]. split; [reflexivity|].
  destruct (exists_last (ledger_nonempty df base_amount strategy Hne))
    as [t [l El]].
  exists l. rewrite El. split; [apply iloc_last|].
  apply (Ht t l El).
Qed.

Lemma totals_are_rounded_sums_witness :
  exists sim,
    simulate_sip no_pow scenario_frame (Fin 1000) "regular" = Ok sim
    /\ total_units sim = round (sum (map units (investments sim))) 3.
Proof.
  destruct (totals_are_rounded_sums no_pow scenario_frame (Fin 1000)
              "regular") as [sim [E [H _]]].
  - vm_compute. discriminate.
  - exists sim. split; assumption.
Defined.

(** The two guards of the summary: the return is 0 unless something was
    invested, the growth rate is 0 unless time has passed. *)
Lemma summary_guards (real_pow : Q -> Q -> float) (df : DataFrame)
    (base_amount : float) (strategy : string) :
  df <> [] ->
  exists sim first_row last_row,
    simulate_sip real_pow df base_amount strategy = Ok sim
    /\ iloc df 0 = Ok first_row
    /\ iloc df (-1) = Ok last_row
    /\ ((sum (map amount (investments sim)) >? Fin 0) = false ->
        return_percent sim = Fin 0)
    /\ ((days_between (date first_row) (date last_row) <= 0)%Z ->
        cagr sim = Fin 0).
Proof.
  intro Hne.
  destruct (simulate_sip_fields real_pow df base_amount strategy Hne)
    as [sim [fr [lr [E [Hf [Hl [Hinv [_ [_ [_ [_ [_ [Hr Hc]]]]]]]]]]]]].
  destruct (run_investments_spec base_amount strategy df) as [_ [_ [Ha _]]].
  exists sim, fr, lr. repeat split; try assumption.
  - rewrite Hinv, <- Ha. intro Hz. rewrite Hr, Hz. reflexivity.
  - intro Hd. rewrite Hc.
    replace (Fin (inject_Z (days_between (date fr) (date lr)))
             / Fin 365.25 >? Fin 0) with false; [reflexivity|].
    symmetry. unfold fdiv. change (Qis_zero 365.25) with false. cbv iota.
    unfold fgtb, fltb, Qltb. apply negb_false_iff, Qle_bool_iff.
    apply Qle_shift_div_r; [reflexivity|].
    rewrite Qmult_0_l. change 0%Q with (inject_Z 0). now rewrite <- Zle_Qle.
Qed.

(** C7 at a base amount of zero over two months: nothing is invested, the
    return is the fallback 0, but the growth rate divides by the zero total
    and comes out as NaN. *)
Theorem zero_investment_growth_rate_is_nan (real_pow : Q -> Q -> float) :
  exists sim,
    simulate_sip real_pow two_months_frame (Fin 0) "regular" = Ok sim
    /\ total_invested sim = Fin 0
    /\ return_percent sim = Fin 0
    /\ cagr sim = NaN.
Proof.
  eexists. split; [vm_compute; reflexivity|].
  repeat split.
Qed.
End Simulator.

(** ** Rolling returns *)

Lemma traverse_forall2 {A B : Type} (f : A -> result B) (P : A -> B -> Prop)
    (l : list A) :
  (forall a, In a l -> exists b, f a = Ok b /\ P a b) ->
  exists bs, traverse f l = Ok bs /\ Forall2 P l bs.
Proof.
  induction l as [|a t IH]; intro H; simpl.
  - exists []. split; [reflexivity|constructor].
  - destruct (H a (or_introl eq_refl)) as [b [Eb Pb]].
    destruct IH as [bs [Ebs Pbs]].
    { intros a' Ha'. apply H. now right. }
    exists (b :: bs). rewrite Eb, Ebs. split; [reflexivity|].
    now constructor.
Qed.

Lemma forall2_seq_nth {B : Type} (P : Z -> B -> Prop) (f : nat -> Z)
    (m : nat) :
  forall s bs,
    Forall2 P (map f (seq s m)) bs ->
    List.length bs = m
    /\ forall k, (k < m)%nat ->
                 exists b, nth_error bs k = Some b /\ P (f (s + k)%nat) b.
Proof.
  induction m as [|m IH]; intros s bs F; simpl in F.
  - inversion F. split; [reflexivity|]. intros k Hk. lia.
  - inversion F as [|? b ? bs' Hb F']; subst.
    destruct (IH (S s) bs' F') as [Hlen Hnth].
    split; [simpl; now rewrite Hlen|].
    intros [|k] Hk.
    + exists b. rewrite Nat.add_0_r. split; [reflexivity|exact Hb].
    + destruct (Hnth k) as [b' [E Pb']]; [lia|].
      exists b'. split; [exact E|].
      now replace (s + S k)%nat with (S s + k)%nat by lia.
Qed.

Lemma iloc_in_range {A : Type} (l : list A) (i : Z) :
  (- len l <= i < len l)%Z -> exists a, iloc l i = Ok a.
Proof.
  unfold iloc, len. intro H.
  set (j := if (i <? 0)%Z then (Z.of_nat (List.length l) + i)%Z else i).
  assert (Hj : (0 <= j < Z.of_nat (List.length l))%Z).
  { subst j. destruct (i <? 0)%Z eqn:E; to_prop; lia. }
  destruct (j <? 0)%Z eqn:E; [to_prop; lia|].
  destruct (nth_error l (Z.to_nat j)) as [a|] eqn:En; [now exists a|].
  apply nth_error_None in En. lia.
Qed.

Lemma slice_window {A : Type} (l : list A) (w i : Z) :
  (0 <= w)%Z -> (w <= i <= len l)%Z ->
  slice l (i - w) i = firstn (Z.to_nat w) (skipn (Z.to_nat (i - w)) l).
Proof.
  intros Hw Hi. unfold slice, clamp.
  replace (i - w <? 0)%Z with false by (symmetry; to_prop; lia).
  replace (i <? 0)%Z with false by (symmetry; to_prop; lia).
  f_equal; [|f_equal]; lia.
Qed.

Section Rolling.
Import SIPBacktest.

(** With a ledger that is not empty and a window that is not negative, every
    index from the window to the end of the ledger gives its point. *)
Lemma rolling_returns_points (investments : list investment)
    (df : DataFrame) (w : Z) :
  investments <> [] -> (0 <= w)%Z ->
  exists points,
    calculate_rolling_returns investments df w = Ok points
    /\ Forall2 (rolling_point_at investments w)
         (range w (len investments)) points.
Proof.
  intros Hne Hw. unfold calculate_rolling_returns.
  destruct investments as [|i0 rest] eqn:Ei; [congruence|].
  rewrite <- Ei in *. clear Ei i0 rest.
  apply traverse_forall2. intros i Hi.
  unfold range in Hi. apply in_map_iff in Hi.
  destruct Hi as [k [<- Hk]]. apply in_seq in Hk.
  assert (Hn : (0 < len investments)%Z).
  { unfold len. destruct investments; [congruence|simpl; lia]. }
  assert (Hb : (w <= w + Z.of_nat k < len investments)%Z) by lia.
  destruct (iloc_in_range investments (w + Z.of_nat k - 1)) as [a Ea];
    [lia|].
  rewrite Ea. cbn [bind]. eexists. split; [reflexivity|].
  exists a. split; [exact Ea|].
  rewrite slice_window by lia. cbn. repeat split.
Qed.


(** A ledger that is not empty and not longer than the window gives the
    empty series. *)
Lemma short_ledger_has_no_points (investments : list investment)
    (df : DataFrame) (w : Z) :
  investments <> [] -> (len investments <= w)%Z ->
  calculate_rolling_returns investments df w = Ok [].
Proof.
  intros Hne Hw. unfold calculate_rolling_returns.
  destruct investments as [|i0 rest]; [congruence|].
  unfold range.
  replace (Z.to_nat (len (i0 :: rest) - w)) with 0%nat by lia.
  reflexivity.
Qed.

(** For a ledger of n >= 1 contributions and a window w >= 0 the calculator
    gives exactly one point per index i with w <= i < n, in that order; the
    point sums amount and units over contributions[i-w, i), takes the price
    and date of contribution i-1, has value = units x price and return
    (value - invested) / invested x 100 when invested is positive and 0
    otherwise.  A window of 12 over 15 contributions gives 3 points. *)
Lemma rolling_returns_per_index (investments : list investment)
    (df : DataFrame) (w : Z) :
  investments <> [] -> (0 <= w)%Z ->
  exists points,
    calculate_rolling_returns investments df w = Ok points
    /\ List.length points = Z.to_nat (len investments - w)
    /\ (forall k, (k < List.length points)%nat ->
          exists p, nth_error points k = Some p
                    /\ rolling_point_at investments w (w + Z.of_nat k) p)
    /\ (List.length investments = 15%nat -> w = 12%Z ->
        List.length points = 3%nat).
Proof.
  intros Hne Hw.
  destruct (rolling_returns_points investments df w Hne Hw)
    as [points [E F]].
  exists points. split; [exact E|].
  unfold range in F.
  destruct (forall2_seq_nth (rolling_point_at investments w)
              (fun k => (w + Z.of_nat k)%Z) _ 0%nat points F)
    as [Hlen Hnth].
  split; [exact Hlen|]. split.
  - intros k Hk. rewrite Hlen in Hk. exact (Hnth k Hk).
  - intros Hn ->. rewrite Hlen. unfold len. rewrite Hn. reflexivity.
Qed.
End Rolling.

(** ** Comparing the strategies *)

Section Comparator.
Import SIPBacktest.

(** C9, as stated, fails: on an empty series the comparator does not fail,
    it returns the empty dictionary. *)
Lemma empty_series_is_not_an_error :
  ~ (forall fetch real_pow scheme_code base_amount days,
        get_historical_data fetch scheme_code days = [] ->
        exists e,
          compare_strategies fetch real_pow scheme_code base_amount days
          = Raise e).
Proof.
  intro H.
  destruct (H no_data no_pow "scheme"%string (Fin 10000) 1000%Z eq_refl)
    as [e He].
  discriminate He.
Qed.

(** C9, amended: on an empty series the comparator returns the empty
    dictionary, whatever the base amount, without simulating; on a non-empty
    series it returns both simulations, their rolling returns over 12
    months, and the differences of their absolute returns and of their
    return percentages. *)
Theorem comparison_of_strategies (fetch : service)
    (real_pow : Q -> Q -> float) (scheme_code : string)
    (base_amount : float) (days : Z) :
  let df := get_historical_data fetch scheme_code days in
  (df = [] ->
   compare_strategies fetch real_pow scheme_code base_amount days
   = Ok EmptyDict)
  /\ (df <> [] ->
      exists fixed variable fixed_rolling variable_rolling,
        simulate_sip real_pow df base_amount "regular" = Ok fixed
        /\ simulate_sip real_pow df base_amount "enhanced" = Ok variable
        /\ calculate_rolling_returns (investments fixed) df 12
           = Ok fixed_rolling
        /\ calculate_rolling_returns (investments variable) df 12
           = Ok variable_rolling
        /\ compare_strategies fetch real_pow scheme_code base_amount days
           = Ok (Comparison
                   (mkComparison fixed variable fixed_rolling
                      variable_rolling
                      (absolute_return variable - absolute_return fixed)
                      (return_percent variable - return_percent fixed)))).
Proof.
  cbv zeta. unfold compare_strategies.
  destruct (get_historical_data fetch scheme_code days) as [|r t] eqn:Edf.
  - split; [reflexivity|congruence].
  - split; [discriminate|]. intros Hne.
    destruct (simulate_sip_fields real_pow (r :: t) base_amount "regular" Hne)
      as [fixed [_ [_ [Ef [_ [_ [Hif _]]]]]]].
    destruct (simulate_sip_fields real_pow (r :: t) base_amount "enhanced"
                Hne)
      as [variable [_ [_ [Ev [_ [_ [Hiv _]]]]]]].
    assert (Hnf : investments fixed <> []).
    { rewrite Hif. now apply ledger_nonempty. }
    assert (Hnv : investments variable <> []).
    { rewrite Hiv. now apply ledger_nonempty. }
    destruct (rolling_returns_points (investments fixed) (r :: t) 12 Hnf)
      as [fr [Efr _]]; [lia|].
    destruct (rolling_returns_points (investments variable) (r :: t) 12 Hnv)
      as [vr [Evr _]]; [lia|].
    exists fixed, variable, fr, vr.
    rewrite Ef, Ev. cbn [bind]. rewrite Efr, Evr. cbn [bind].
    repeat split; assumption.
Qed.

Lemma comparison_of_strategies_witness :
  compare_strategies no_data no_pow "scheme" (Fin 10000) 1000 = Ok EmptyDict
  /\ exists c,
       compare_strategies scenario no_pow "scheme" (Fin 1000) 1000
       = Ok (Comparison c)
       /\ outperformance c
          = absolute_return (enhanced c) - absolute_return (regular c).
Proof.
  split.
  - destruct (comparison_of_strategies no_data no_pow "scheme" (Fin 10000)
                1000) as [H _].
    apply H. reflexivity.
  - destruct (comparison_of_strategies scenario no_pow "scheme" (Fin 1000)
                1000) as [_ H].
    destruct H as [f [v [fr [vr [_ [_ [_ [_ E]]]]]]]].
    + vm_compute. discriminate.
    + eexists. split; [exact E|reflexivity].
Defined.
End Comparator.

(** ** Preparing the series *)

Lemma backtest_prepared_dates (fetch : service) (scheme_code : string)
    (days : Z) :
  map SIPBacktest.date
    (SIPBacktest.get_historical_data fetch scheme_code days)
  = map rec_date
      (sort_records (get_nav_history fetch scheme_code (Some days))).
Proof.
  unfold SIPBacktest.get_historical_data.
  destruct (get_nav_history fetch scheme_code (Some days)) as [|r t];
    [reflexivity|].
  apply backtest_frame_dates.
Qed.

Lemma enhanced_prepared_dates (fetch : service) (scheme_code : string)
    (days : Z) :
  map EnhancedSIP.date
    (EnhancedSIP.analyze_nav_trends fetch scheme_code days)
  = map rec_date
      (sort_records (get_nav_history fetch scheme_code (Some days))).
Proof.
  unfold EnhancedSIP.analyze_nav_trends.
  destruct (get_nav_history fetch scheme_code (Some days)) as [|r t];
    [reflexivity|].
  apply enhanced_frame_dates.
Qed.

(** C4, as stated, fails: nothing removes repeated dates.  Two raw records
    for the same day both reach the prepared series. *)
Lemma repeated_dates_are_kept :
  get_nav_history repeated_date "scheme" (Some 1000%Z) <> []
  /\ ~ NoDup (map SIPBacktest.date
                (SIPBacktest.get_historical_data repeated_date "scheme"
                   1000))
  /\ ~ StronglySorted date_lt
         (map SIPBacktest.date
            (SIPBacktest.get_historical_data repeated_date "scheme" 1000))
  /\ ~ NoDup (map EnhancedSIP.date
                (EnhancedSIP.analyze_nav_trends repeated_date "scheme"
                   1000)).
Proof.
  split; [discriminate|].
  assert (Hdup : forall d : timestamp, ~ NoDup [d; d]).
  { intros d H. inversion H as [|? ? Hnotin _]. apply Hnotin. now left. }
  split; [apply Hdup|]. split; [|apply Hdup].
  intro H. apply strict_sorted_nodup in H. revert H. apply Hdup.
Qed.

(** C4, amended: the prepared series is sorted ascending by date and holds
    the dates of the raw records, each as often as the raw records do; it is
    strictly ascending, without repeated dates, when the raw records have
    pairwise distinct dates. *)
Theorem prepared_series_is_sorted (fetch : service) (scheme_code : string)
    (days : Z) (dates : list timestamp) :
  dates = map SIPBacktest.date
            (SIPBacktest.get_historical_data fetch scheme_code days)
  \/ dates = map EnhancedSIP.date
               (EnhancedSIP.analyze_nav_trends fetch scheme_code days) ->
  let history := get_nav_history fetch scheme_code (Some days) in
  StronglySorted date_le dates
  /\ Permutation dates (map rec_date history)
  /\ (NoDup (map rec_date history) ->
      StronglySorted date_lt dates /\ NoDup dates).
Proof.
  intros H history.
  assert (E : dates = map rec_date (sort_records history)).
  { destruct H as [-> | ->];
      [apply backtest_prepared_dates|apply enhanced_prepared_dates]. }
  clear H. subst dates.
  split; [apply sort_records_dates_sorted|].
  split; [apply sort_records_dates_perm|].
  intro Hnd.
  assert (Hnd' : NoDup (map rec_date (sort_records history))).
  { eapply Permutation_NoDup; [|exact Hnd].
    apply Permutation_sym, sort_records_dates_perm. }
  split; [|exact Hnd'].
  apply sorted_nodup_strict; [apply sort_records_dates_sorted|exact Hnd'].
Qed.

Lemma prepared_series_is_sorted_witness :
  StronglySorted date_lt (map SIPBacktest.date scenario_frame).
Proof.
  destruct (prepared_series_is_sorted scenario "scheme" 1000
              (map SIPBacktest.date scenario_frame)) as [_ [_ H]].
  - left. reflexivity.
  - apply H. vm_compute.
    repeat (constructor; [simpl; intuition discriminate|]). constructor.
Defined.

(** ** Comparisons of numbers *)

Lemma fleb_total (x y : float) :
  notna x = true -> notna y = true -> (x <=? y) = true \/ (y <=? x) = true.
Proof.
  destruct x as [a| | |], y as [b| | |]; simpl; intros; auto; try discriminate.
  rewrite !Qle_bool_iff.
  destruct (Qlt_le_dec a b) as [L|L]; [left; now apply Qlt_le_weak|now right].
Qed.

Lemma fleb_trans (x y z : float) :
  (x <=? y) = true -> (y <=? z) = true -> (x <=? z) = true.
Proof.
  destruct x as [a| | |], y as [b| | |], z as [c| | |]; simpl; intros;
    auto; try discriminate.
  rewrite Qle_bool_iff in *. eapply Qle_trans; eassumption.
Qed.

Lemma fleb_notna (x y : float) :
  (x <=? y) = true -> notna x = true /\ notna y = true.
Proof.
  destruct x, y; simpl; intros; auto; discriminate.
Qed.

Lemma fleb_fltb_trans (x y z : float) :
  (x <=? y) = true -> (y <? z) = true -> (x <? z) = true.
Proof.
  destruct x as [a| | |], y as [b| | |], z as [c| | |]; simpl; intros;
    auto; try discriminate.
  unfold Qltb in *. rewrite negb_true_iff in *.
  rewrite Qle_bool_iff in H.
  destruct (Qle_bool c a) eqn:E; [|reflexivity].
  rewrite Qle_bool_iff in E.
  assert (Hcb : (c <= b)%Q) by (eapply Qle_trans; eassumption).
  apply Qle_bool_iff in Hcb. congruence.
Qed.

Lemma fabs_notna (x : float) : notna (fabs x) = notna x.
Proof. now destruct x. Qed.

Section Opportunities.
Import EnhancedSIP.

Lemma descending_total (x y : float) :
  descending x y = true \/ descending y x = true.
Proof.
  destruct x as [a| | |], y as [b| | |]; simpl; auto.
  rewrite !Qle_bool_iff.
  destruct (Qlt_le_dec a b) as [L|L]; [right; now apply Qlt_le_weak|now left].
Qed.

Lemma descending_trans (x y z : float) :
  descending x y = true -> descending y z = true -> descending x z = true.
Proof.
  destruct x as [a| | |], y as [b| | |], z as [c| | |]; simpl; intros;
    auto; try discriminate.
  rewrite Qle_bool_iff in *. eapply Qle_trans; eassumption.
Qed.

Lemma descending_fleb (x y : float) :
  notna x = true -> notna y = true -> descending x y = (y <=? x).
Proof. destruct x, y; simpl; intros; auto; discriminate. Qed.

Lemma find_best_investment_dates_rows (fetch : service)
    (scheme_code : string) (drop_threshold : float) (days : Z) :
  find_best_investment_dates fetch scheme_code drop_threshold days
  = map describe
      (sort_by_score
         (filter (fun r => nav_change r <=? drop_threshold)
            (analyze_nav_trends fetch scheme_code days))).
Proof.
  unfold find_best_investment_dates.
  now destruct (analyze_nav_trends fetch scheme_code days).
Qed.

Lemma sort_by_score_sorted (rows : DataFrame) :
  Forall (fun r => notna (nav_change r) = true) rows ->
  StronglySorted
    (fun a b => (fabs (nav_change b) <=? fabs (nav_change a)) = true)
    (sort_by_score rows).
Proof.
  intro Hna. unfold sort_by_score.
  set (leb := fun a b => descending (opportunity_score a)
                           (opportunity_score b)).
  assert (Hna' : Forall (fun r => notna (nav_change r) = true)
                   (stable_sort leb rows)).
  { eapply Permutation_Forall; [apply stable_sort_perm|exact Hna]. }
  pose proof (stable_sort_sorted leb
                (fun a b => descending_total _ _)
                (fun a b c => descending_trans _ _ _) rows) as Hs.
  induction Hs as [|a t Hs IH Hall]; [constructor|].
  inversion Hna' as [|? ? Ha Ht]; subst.
  constructor; [now apply IH|].
  rewrite Forall_forall in *. intros b Hb.
  specialize (Hall b Hb). unfold leb, opportunity_score in Hall.
  rewrite descending_fleb in Hall; [exact Hall| |];
    rewrite fabs_notna; [exact Ha|now apply Ht].
Qed.

(** C8, as stated, fails: the reported score is the drop magnitude rounded
    to two decimals.  A drop of 2.346 percent is reported with score 2.35. *)
Lemma reported_score_is_rounded :
  ~ (forall fetch scheme_code drop_threshold days,
        (drop_threshold <? Fin 0) = true ->
        forall o,
          In o (find_best_investment_dates fetch scheme_code drop_threshold
                  days) ->
          exists r,
            In r (analyze_nav_trends fetch scheme_code days)
            /\ opp_date o = date r
            /\ (nav_change r <=? drop_threshold) = true
            /\ feq (opp_score o) (fabs (nav_change r))).
Proof.
  intro H.
  destruct (H small_drop "scheme"%string (Fin (-2)) 600%Z eq_refl
              _ (or_introl eq_refl)) as [r [Hin [Hd [_ Hs]]]].
  vm_compute in Hin. destruct Hin as [<-|[<-|[]]].
  - discriminate Hd.
  - vm_compute in Hs. discriminate Hs.
Qed.

(** Two drops with the same reported score come in the order of their
    unrounded magnitudes, here the later day first. *)
Lemma equal_reported_scores_not_by_date :
  map (fun o => (opp_date o, opp_score o))
    (find_best_investment_dates two_close_drops "scheme" (Fin (-2)) 600)
  = [ (mkDate 2024 1 4, canon (Fin 2.35));
      (mkDate 2024 1 2, canon (Fin 2.35)) ].
Proof. vm_compute. reflexivity. Qed.

(** C8, amended: the opportunity set holds exactly the points whose percent
    change is at or below the threshold, each reported with the date of its
    point and with its drop magnitude, the absolute value of the percent
    change, rounded to two decimals; the output is ordered by descending
    unrounded magnitude.  Below a negative threshold every such percent
    change is negative. *)
Theorem opportunities_by_magnitude (fetch : service) (scheme_code : string)
    (drop_threshold : float) (days : Z) :
  exists rows,
    Permutation rows
      (filter (fun r => nav_change r <=? drop_threshold)
         (analyze_nav_trends fetch scheme_code days))
    /\ StronglySorted
         (fun a b => (fabs (nav_change b) <=? fabs (nav_change a)) = true)
         rows
    /\ Forall2
         (fun r o => opp_date o = date r
                     /\ opp_score o = round (fabs (nav_change r)) 2
                     /\ nav_change_percent o = round (nav_change r) 2)
         rows
         (find_best_investment_dates fetch scheme_code drop_threshold days)
    /\ ((drop_threshold <? Fin 0) = true ->
        Forall (fun r => (nav_change r <? Fin 0) = true) rows).
Proof.
  set (qualifying := filter (fun r => nav_change r <=? drop_threshold)
                       (analyze_nav_trends fetch scheme_code days)).
  assert (Hq : Forall (fun r => (nav_change r <=? drop_threshold) = true)
                 qualifying).
  { apply Forall_forall. intros r Hr. now apply filter_In in Hr. }
  exists (sort_by_score qualifying).
  split; [apply Permutation_sym, stable_sort_perm|].
  split.
  { apply sort_by_score_sorted. refine (Forall_impl _ _ Hq).
    intros r Hr. now apply fleb_notna in Hr. }
  split.
  { rewrite find_best_investment_dates_rows. fold qualifying.
    induction (sort_by_score qualifying) as [|r t IH]; simpl;
      constructor; [|exact IH].
    repeat split. }
  intro Hneg.
  eapply Permutation_Forall; [apply stable_sort_perm|].
  refine (Forall_impl _ _ Hq).
  intros r Hr. cbv beta in Hr. eapply fleb_fltb_trans; eassumption.
Qed.

Lemma opportunities_by_magnitude_witness :
  exists rows,
    Permutation rows
      (filter (fun r => nav_change r <=? Fin (-2))
         (analyze_nav_trends two_close_drops "scheme" 600))
    /\ Forall (fun r => (nav_change r <? Fin 0) = true) rows.
Proof.
  destruct (opportunities_by_magnitude two_close_drops "scheme" (Fin (-2))
              600) as [rows [Hp [_ [_ Hn]]]].
  exists rows. split; [exact Hp|]. apply Hn. reflexivity.
Defined.

(** ** The monthly strategy *)

(** C10: the monthly strategy reads the last and the second-to-last point.
    On a series of exactly one point the second read is out of bounds and
    the call fails; a strategy is returned exactly on series of two or more
    points. *)
Theorem monthly_strategy_needs_two_points (fetch : service)
    (code : string) (base_amount : float) :
  let df := analyze_nav_trends fetch code 30 in
  (List.length df = 1%nat ->
   get_monthly_investment_strategy fetch code base_amount
   = Raise IndexError)
  /\ (forall s,
         get_monthly_investment_strategy fetch code base_amount
         = Ok (Strategy s) ->
         (2 <= List.length df)%nat)
  /\ ((2 <= List.length df)%nat ->
      exists s,
        get_monthly_investment_strategy fetch code base_amount
        = Ok (Strategy s)).
Proof.
  cbv zeta. unfold get_monthly_investment_strategy.
  destruct (analyze_nav_trends fetch code 30) as [|a [|b t]] eqn:E.
  - split; [discriminate|]. split; [discriminate|]. simpl. lia.
  - split; [reflexivity|]. split; [discriminate|]. simpl. lia.
  - split; [discriminate|]. split; [simpl; lia|]. intros _.
    destruct (iloc_in_range (a :: b :: t) (-1)) as [x Ex].
    { unfold len. simpl List.length. lia. }
    destruct (iloc_in_range (a :: b :: t) (-2)) as [y Ey].
    { unfold len. simpl List.length. lia. }
    rewrite Ex, Ey. cbn [bind]. eexists. reflexivity.
Qed.

Lemma monthly_strategy_needs_two_points_witness :
  get_monthly_investment_strategy single_point "scheme" (Fin 10000)
  = Raise IndexError.
Proof.
  destruct (monthly_strategy_needs_two_points single_point "scheme"
              (Fin 10000)) as [H _].
  apply H. reflexivity.
Defined.
End Opportunities.

(** * Further properties *)

(** ** The fetched history *)

Lemma clamp_zero {A : Type} (l : list A) : clamp l 0 = 0%nat.
Proof.
  unfold clamp, len. change (0 <? 0)%Z with false. cbv iota. lia.
Qed.

Lemma take_firstn {A : Type} (l : list A) (n : Z) :
  take l n = firstn (clamp l n) l.
Proof.
  unfold take, slice. rewrite clamp_zero, Nat.sub_0_r. reflexivity.
Qed.

(** X1: [get_nav_history] returns a prefix of the fetched records: all of
    them when [days] is [None] or 0, the first [days] of them (or all, if
    there are fewer) when [days] is positive, all but the last [-days] when
    it is negative; nothing when the request failed. *)
Theorem nav_history_is_a_prefix (fetch : service) (scheme_code : string)
    (days : option Z) :
  let history := get_nav_history fetch scheme_code days in
  (fetch scheme_code = None -> history = [])
  /\ (forall data,
         fetch scheme_code = Some data ->
         (exists rest, data = history ++ rest)
         /\ (days = None \/ days = Some 0%Z -> history = data)
         /\ (forall n, days = Some n -> (0 < n)%Z ->
                       len history = Z.min n (len data))
         /\ (forall n, days = Some n -> (n < 0)%Z ->
                       len history = Z.max 0 (len data + n))).
Proof.
  cbv zeta. unfold get_nav_history. split.
  - intros ->. reflexivity.
  - intros data ->. destruct days as [n|].
    + destruct (n =? 0)%Z eqn:E.
      * apply Z.eqb_eq in E. subst n.
        split; [exists []; now rewrite app_nil_r|].
        split; [reflexivity|]. split; intros m [= <-] Hm; lia.
      * apply Z.eqb_neq in E. rewrite take_firstn.
        split; [exists (skipn (clamp data n) data);
                now rewrite firstn_skipn|].
        split; [intros [H|[= H]]; [discriminate|contradiction]|].
        unfold len, clamp, len. rewrite length_firstn.
        split; intros m [= <-] Hm.
        -- replace (n <? 0)%Z with false by (symmetry; to_prop; lia). lia.
        -- replace (n <? 0)%Z with true by (symmetry; to_prop; lia). lia.
    + split; [exists []; now rewrite app_nil_r|].
      split; [reflexivity|]. split; intros m [=].
Qed.

Lemma nav_history_is_a_prefix_witness :
  len (get_nav_history scenario "scheme" (Some 2%Z)) = 2%Z.
Proof.
  destruct (nav_history_is_a_prefix scenario "scheme" (Some 2%Z))
    as [_ H].
  destruct (H _ eq_refl) as [_ [_ [Hpos _]]].
  rewrite (Hpos 2%Z eq_refl); [reflexivity|lia].
Defined.

(** ** The columns of the prepared frames *)

Lemma map_snd_combine {A B : Type} (l : list A) (l' : list B) :
  (List.length l' <= List.length l)%nat -> map snd (combine l l') = l'.
Proof.
  revert l'. induction l as [|a t IH]; intros [|b t'] H; simpl in *;
    try reflexivity; try lia.
  f_equal. apply IH. lia.
Qed.

Lemma map_of_fst {A B C : Type} (f : A -> C) (l : list A) (l' : list B) :
  (List.length l <= List.length l')%nat ->
  map (fun x => f (fst x)) (combine l l') = map f l.
Proof.
  intro H. rewrite <- (map_map fst f). f_equal. now apply map_fst_combine.
Qed.

Lemma map_of_snd {A B C : Type} (g : B -> C) (l : list A) (l' : list B) :
  (List.length l' <= List.length l)%nat ->
  map (fun x => g (snd x)) (combine l l') = map g l'.
Proof.
  intro H. rewrite <- (map_map snd g). f_equal. now apply map_snd_combine.
Qed.

Lemma pct_change_from (xs : list float) :
  pct_change xs = changes_from NaN xs.
Proof.
  unfold pct_change. destruct xs as [|x t]; [reflexivity|].
  unfold shift. cbn [combine map fst snd changes_from]. f_equal.
  revert x. induction t as [|y t' IH]; intro x; [reflexivity|].
  change (removelast (x :: y :: t')) with (x :: removelast (y :: t')).
  cbn [combine map fst snd changes_from]. f_equal. apply IH.
Qed.

Lemma changes_from_next (p : float) (xs : list float) (i : nat)
    (a b : float) :
  nth_error xs i = Some a -> nth_error xs (S i) = Some b ->
  nth_error (changes_from p xs) (S i) = Some (b / a - Fin 1).
Proof.
  revert p i. induction xs as [|x t IH]; intros p i Ha Hb.
  - destruct i; discriminate.
  - destruct i as [|i].
    + simpl in Ha. injection Ha as ->.
      destruct t as [|y t']; [discriminate|].
      simpl in Hb. injection Hb as ->. reflexivity.
    + simpl in Ha. cbn [changes_from nth_error].
      apply IH; [exact Ha|exact Hb].
Qed.

Lemma backtest_frame_columns (records : list nav_record) :
  let df := SIPBacktest.make_frame records in
  let navs := map (fun r => Fin (rec_nav r)) records in
  map (fun r => (SIPBacktest.date r, SIPBacktest.nav r)) df
  = map dated_price records
  /\ map SIPBacktest.nav_change df
     = map (fun c => c * Fin 100) (pct_change navs)
  /\ map SIPBacktest.nav_ma_30 df = rolling_mean 30 navs.
Proof.
  cbv zeta. unfold SIPBacktest.make_frame.
  set (navs := map (fun r => Fin (rec_nav r)) records).
  set (changes := map (fun c => c * Fin 100) (pct_change navs)).
  set (ma := rolling_mean 30 navs).
  assert (Hn : List.length navs = List.length records)
    by (subst navs; apply length_map).
  assert (Hc : List.length changes = List.length records).
  { subst changes. now rewrite length_map, length_pct_change. }
  assert (Hm : List.length ma = List.length records).
  { subst ma. now rewrite length_rolling_mean. }
  rewrite !map_map. cbn [SIPBacktest.date SIPBacktest.nav
                           SIPBacktest.nav_change SIPBacktest.nav_ma_30].
  split; [|split].
  - apply (map_of_fst dated_price). rewrite length_combine. lia.
  - rewrite (map_of_snd fst) by (rewrite length_combine; lia).
    apply map_fst_combine. lia.
  - rewrite (map_of_snd snd) by (rewrite length_combine; lia).
    apply map_snd_combine. lia.
Qed.

Lemma enhanced_frame_columns (records : list nav_record) :
  let df := EnhancedSIP.make_frame records in
  let navs := map (fun r => Fin (rec_nav r)) records in
  map (fun r => (EnhancedSIP.date r, EnhancedSIP.nav r)) df
  = map dated_price records
  /\ map EnhancedSIP.nav_change df
     = map (fun c => c * Fin 100) (pct_change navs)
  /\ map EnhancedSIP.nav_ma_30 df = rolling_mean 30 navs.
Proof.
  cbv zeta. unfold EnhancedSIP.make_frame.
  set (navs := map (fun r => Fin (rec_nav r)) records).
  set (changes := map (fun c => c * Fin 100) (pct_change navs)).
  set (ma7 := rolling_mean 7 navs).
  set (ma := rolling_mean 30 navs).
  assert (Hn : List.length navs = List.length records)
    by (subst navs; apply length_map).
  assert (Hc : List.length changes = List.length records).
  { subst changes. now rewrite length_map, length_pct_change. }
  assert (Hm7 : List.length ma7 = List.length records).
  { subst ma7. now rewrite length_rolling_mean. }
  assert (Hm : List.length ma = List.length records).
  { subst ma. now rewrite length_rolling_mean. }
  rewrite !map_map. cbn [EnhancedSIP.date EnhancedSIP.nav
                           EnhancedSIP.nav_change EnhancedSIP.nav_ma_30].
  split; [|split].
  - apply (map_of_fst dated_price). rewrite !length_combine. lia.
  - rewrite (map_of_snd fst) by (rewrite !length_combine; lia).
    apply map_fst_combine. rewrite length_combine. lia.
  - rewrite (map_of_snd (fun y => snd (snd y)))
      by (rewrite !length_combine; lia).
    rewrite (map_of_snd snd) by (rewrite length_combine; lia).
    apply map_snd_combine. lia.
Qed.

Lemma backtest_prepared_columns (fetch : service) (scheme_code : string)
    (days : Z) :
  let df := SIPBacktest.get_historical_data fetch scheme_code days in
  let sorted :=
    sort_records (get_nav_history fetch scheme_code (Some days)) in
  let navs := map (fun r => Fin (rec_nav r)) sorted in
  map (fun r => (SIPBacktest.date r, SIPBacktest.nav r)) df
  = map dated_price sorted
  /\ map SIPBacktest.nav_change df
     = map (fun c => c * Fin 100) (pct_change navs)
  /\ map SIPBacktest.nav_ma_30 df = rolling_mean 30 navs.
Proof.
  cbv zeta. unfold SIPBacktest.get_historical_data.
  destruct (get_nav_history fetch scheme_code (Some days)) as [|r t].
  - repeat split.
  - apply backtest_frame_columns.
Qed.

Lemma enhanced_prepared_columns (fetch : service) (scheme_code : string)
    (days : Z) :
  let df := EnhancedSIP.analyze_nav_trends fetch scheme_code days in
  let sorted :=
    sort_records (get_nav_history fetch scheme_code (Some days)) in
  let navs := map (fun r => Fin (rec_nav r)) sorted in
  map (fun r => (EnhancedSIP.date r, EnhancedSIP.nav r)) df
  = map dated_price sorted
  /\ map EnhancedSIP.nav_change df
     = map (fun c => c * Fin 100) (pct_change navs)
  /\ map EnhancedSIP.nav_ma_30 df = rolling_mean 30 navs.
Proof.
  cbv zeta. unfold EnhancedSIP.analyze_nav_trends.
  destruct (get_nav_history fetch scheme_code (Some days)) as [|r t].
  - repeat split.
  - apply enhanced_frame_columns.
Qed.

(** X2: preparing the series neither drops nor adds a point: the rows of
    the prepared frame, as dated prices, are a rearrangement of the fetched
    records, for [get_historical_data] and [analyze_nav_trends] alike. *)
Theorem prepared_rows_are_the_fetched_records (fetch : service)
    (scheme_code : string) (days : Z) (rows : list (timestamp * float)) :
  rows = map (fun r => (SIPBacktest.date r, SIPBacktest.nav r))
           (SIPBacktest.get_historical_data fetch scheme_code days)
  \/ rows = map (fun r => (EnhancedSIP.date r, EnhancedSIP.nav r))
              (EnhancedSIP.analyze_nav_trends fetch scheme_code days) ->
  let history := get_nav_history fetch scheme_code (Some days) in
  Permutation rows (map dated_price history)
  /\ List.length rows = List.length history.
Proof.
  intros H history.
  assert (E : rows = map dated_price (sort_records history)).
  { destruct H as [-> | ->];
      [apply backtest_prepared_columns|apply enhanced_prepared_columns]. }
  subst rows. split.
  - apply Permutation_map, Permutation_sym, stable_sort_perm.
  - rewrite length_map. apply Permutation_length, Permutation_sym,
      stable_sort_perm.
Qed.

Lemma prepared_rows_are_the_fetched_records_witness :
  List.length scenario_frame = 3%nat.
Proof.
  destruct (prepared_rows_are_the_fetched_records scenario "scheme" 1000
              (map (fun r => (SIPBacktest.date r, SIPBacktest.nav r))
                 scenario_frame)) as [_ H].
  - left. reflexivity.
  - rewrite length_map in H. exact H.
Defined.

Lemma prepared_navs (rows : list (timestamp * float))
    (sorted : list nav_record) :
  rows = map dated_price sorted ->
  map snd rows = map (fun r => Fin (rec_nav r)) sorted.
Proof. intros ->. now rewrite map_map. Qed.

(** X3: in a prepared frame the percent change of the first row is NaN and
    the percent change of every later row is (price / previous price - 1)
    x 100, the previous price being that of the row before it. *)
Theorem percent_change_of_consecutive_rows (fetch : service)
    (scheme_code : string) (days : Z) (navs changes : list float) :
  (navs = map SIPBacktest.nav
            (SIPBacktest.get_historical_data fetch scheme_code days)
   /\ changes = map SIPBacktest.nav_change
                  (SIPBacktest.get_historical_data fetch scheme_code days))
  \/ (navs = map EnhancedSIP.nav
               (EnhancedSIP.analyze_nav_trends fetch scheme_code days)
      /\ changes = map EnhancedSIP.nav_change
                     (EnhancedSIP.analyze_nav_trends fetch scheme_code
                        days)) ->
  List.length changes = List.length navs
  /\ (forall c, nth_error changes 0 = Some c -> c = NaN)
  /\ (forall i a b,
         nth_error navs i = Some a -> nth_error navs (S i) = Some b ->
         nth_error changes (S i) = Some ((b / a - Fin 1) * Fin 100)).
Proof.
  intro H.
  set (sorted := sort_records (get_nav_history fetch scheme_code (Some days))).
  assert (E : navs = map (fun r => Fin (rec_nav r)) sorted
              /\ changes = map (fun c => c * Fin 100) (pct_change navs)).
  { destruct H as [[-> ->] | [-> ->]].
    - destruct (backtest_prepared_columns fetch scheme_code days)
        as [Hr [Hc _]].
      apply prepared_navs in Hr. rewrite map_map in Hr. cbn [snd] in Hr.
      fold sorted in Hr, Hc. rewrite <- Hr in Hc. split; [exact Hr|exact Hc].
    - destruct (enhanced_prepared_columns fetch scheme_code days)
        as [Hr [Hc _]].
      apply prepared_navs in Hr. rewrite map_map in Hr. cbn [snd] in Hr.
      fold sorted in Hr, Hc. rewrite <- Hr in Hc. split; [exact Hr|exact Hc]. }
  destruct E as [_ ->]. clear H. rewrite pct_change_from.
  split; [|split].
  - rewrite length_map, <- pct_change_from. apply length_pct_change.
  - intros c Hc. destruct navs as [|x t]; [discriminate|].
    simpl in Hc. injection Hc as <-. now destruct x.
  - intros i a b Ha Hb. rewrite nth_error_map.
    now rewrite (changes_from_next NaN navs i a b Ha Hb).
Qed.

Lemma percent_change_of_consecutive_rows_witness :
  nth_error (map SIPBacktest.nav_change scenario_frame) 1
  = Some ((Fin 97 / Fin 100 - Fin 1) * Fin 100).
Proof.
  destruct (percent_change_of_consecutive_rows scenario "scheme" 1000
              (map SIPBacktest.nav scenario_frame)
              (map SIPBacktest.nav_change scenario_frame))
    as [_ [_ H]].
  - left. split; reflexivity.
  - apply (H 0%nat); reflexivity.
Defined.

Lemma nth_error_map_seq {B : Type} (g : nat -> B) (n : nat) :
  forall s i m, nth_error (map g (seq s n)) i = Some m -> m = g (s + i)%nat.
Proof.
  induction n as [|n IH]; intros s i m H.
  - destruct i; discriminate.
  - destruct i as [|i]; simpl in H.
    + injection H as <-. now rewrite Nat.add_0_r.
    + apply IH in H. subst m. f_equal. lia.
Qed.

Lemma in_firstn {A : Type} (n : nat) (l : list A) (x : A) :
  In x (firstn n l) -> In x l.
Proof.
  intro H. rewrite <- (firstn_skipn n l). apply in_or_app. now left.
Qed.

Lemma in_skipn {A : Type} (n : nat) (l : list A) (x : A) :
  In x (skipn n l) -> In x l.
Proof.
  intro H. rewrite <- (firstn_skipn n l). apply in_or_app. now right.
Qed.

Lemma sum_of_finite (xs : list float) :
  Forall (fun x => exists q, x = Fin q) xs ->
  forall a, exists q, fold_left fadd xs (Fin a) = Fin q.
Proof.
  induction 1 as [|x t [q ->] _ IH]; intro a; simpl; [now exists a|].
  apply IH.
Qed.

(** X4: the 30-point moving average of a prepared frame is NaN in the first
    29 rows; from the 30th row on it is the mean of the 30 prices up to and
    including the row's own, and it is a number. *)
Theorem moving_average_needs_thirty_points (fetch : service)
    (scheme_code : string) (days : Z) (navs averages : list float) :
  (navs = map SIPBacktest.nav
            (SIPBacktest.get_historical_data fetch scheme_code days)
   /\ averages = map SIPBacktest.nav_ma_30
                   (SIPBacktest.get_historical_data fetch scheme_code days))
  \/ (navs = map EnhancedSIP.nav
               (EnhancedSIP.analyze_nav_trends fetch scheme_code days)
      /\ averages = map EnhancedSIP.nav_ma_30
                      (EnhancedSIP.analyze_nav_trends fetch scheme_code
                         days)) ->
  forall i m,
    nth_error averages i = Some m ->
    ((i < 29)%nat -> m = NaN)
    /\ ((29 <= i)%nat ->
        m = sum (firstn 30 (skipn (i - 29) navs)) / Fin 30
        /\ notna m = true).
Proof.
  intro H.
  set (sorted := sort_records (get_nav_history fetch scheme_code (Some days))).
  assert (E : navs = map (fun r => Fin (rec_nav r)) sorted
              /\ averages = rolling_mean 30 navs).
  { destruct H as [[-> ->] | [-> ->]].
    - destruct (backtest_prepared_columns fetch scheme_code days)
        as [Hr [_ Hm]].
      apply prepared_navs in Hr. rewrite map_map in Hr. cbn [snd] in Hr.
      fold sorted in Hr, Hm. rewrite <- Hr in Hm. split; [exact Hr|exact Hm].
    - destruct (enhanced_prepared_columns fetch scheme_code days)
        as [Hr [_ Hm]].
      apply prepared_navs in Hr. rewrite map_map in Hr. cbn [snd] in Hr.
      fold sorted in Hr, Hm. rewrite <- Hr in Hm. split; [exact Hr|exact Hm]. }
  destruct E as [En ->]. clear H. intros i m Hm.
  unfold rolling_mean in Hm. apply nth_error_map_seq in Hm.
  cbn [Nat.add] in Hm. subst m. split.
  - intro Hi. replace (S i <? 30)%nat with true; [reflexivity|].
    symmetry. apply Nat.ltb_lt. lia.
  - intro Hi. replace (S i <? 30)%nat with false
      by (symmetry; apply Nat.ltb_ge; lia).
    replace (S i - 30)%nat with (i - 29)%nat by lia.
    split; [reflexivity|].
    destruct (sum_of_finite (firstn 30 (skipn (i - 29) navs))) with (a := 0%Q)
      as [q Hq].
    + apply Forall_forall. intros x Hx.
      apply in_firstn, in_skipn in Hx. rewrite En in Hx.
      apply in_map_iff in Hx. destruct Hx as [r [<- _]]. eauto.
    + unfold sum. rewrite Hq. reflexivity.
Qed.

Lemma moving_average_needs_thirty_points_witness :
  exists m,
    nth_error (map SIPBacktest.nav_ma_30 scenario_frame) 2 = Some m
    /\ m = NaN.
Proof.
  eexists. split; [reflexivity|].
  destruct (moving_average_needs_thirty_points scenario "scheme" 1000
              (map SIPBacktest.nav scenario_frame)
              (map SIPBacktest.nav_ma_30 scenario_frame)
              (or_introl (conj eq_refl eq_refl)) 2%nat _ eq_refl) as [H _].
  apply H. lia.
Defined.

(** ** More on the simulator *)

Section SimulatorMore.
Import SIPBacktest.

Lemma simulate_sip_ok (real_pow : Q -> Q -> float) (df : DataFrame)
    (base_amount : float) (strategy : string) (sim : simulation) :
  simulate_sip real_pow df base_amount strategy = Ok sim ->
  df <> []
  /\ investments sim
     = acc_investments (run_investments base_amount strategy df)
  /\ num_investments sim = List.length (investments sim).
Proof.
  intro E. destruct df as [|r t]; [discriminate E|].
  assert (Hne : r :: t <> []) by discriminate.
  split; [exact Hne|].
  destruct (simulate_sip_fields real_pow (r :: t) base_amount strategy Hne)
    as [sim' [_ [_ [E' [_ [_ [Hinv [Hnum _]]]]]]]].
  rewrite E in E'. injection E' as <-.
  split; [exact Hinv|]. now rewrite Hnum, Hinv.
Qed.

Lemma ledger_points (base_amount : float) (strategy : string)
    (df : DataFrame) :
  map purchase_point
    (acc_investments (run_investments base_amount strategy df))
  = map (fun r => (date r, nav r, nav_change r))
      (flat_map representative (map snd (groupby_year_month df))).
Proof.
  destruct (run_investments_spec base_amount strategy df) as [F _].
  induction F as [|r i rs invs [Hd [Hn [Hc _]]] _ IH]; simpl;
    [reflexivity|].
  rewrite IH. unfold purchase_point. now rewrite Hd, Hn, Hc.
Qed.

(** X5: the dates, prices and percent changes at which the simulator buys
    do not depend on the strategy or on the base amount: both strategies buy
    on the same days, the same number of times. *)
Theorem purchase_days_do_not_depend_on_strategy
    (real_pow : Q -> Q -> float) (df : DataFrame)
    (base1 base2 : float) (strategy1 strategy2 : string)
    (sim1 sim2 : simulation) :
  simulate_sip real_pow df base1 strategy1 = Ok sim1 ->
  simulate_sip real_pow df base2 strategy2 = Ok sim2 ->
  map purchase_point (investments sim1)
  = map purchase_point (investments sim2)
  /\ num_investments sim1 = num_investments sim2.
Proof.
  intros E1 E2.
  destruct (simulate_sip_ok _ _ _ _ _ E1) as [_ [H1 N1]].
  destruct (simulate_sip_ok _ _ _ _ _ E2) as [_ [H2 N2]].
  assert (P : map purchase_point (investments sim1)
              = map purchase_point (investments sim2)).
  { now rewrite H1, H2, !ledger_points. }
  split; [exact P|].
  rewrite N1, N2, <- (length_map purchase_point (investments sim1)), P.
  apply length_map.
Qed.

Lemma purchase_days_do_not_depend_on_strategy_witness :
  exists sim1 sim2,
    simulate_sip no_pow scenario_frame (Fin 1000) "regular" = Ok sim1
    /\ simulate_sip no_pow scenario_frame (Fin 500) "enhanced" = Ok sim2
    /\ num_investments sim1 = num_investments sim2.
Proof.
  destruct (simulate_sip no_pow scenario_frame (Fin 1000) "regular")
    as [sim1|e] eqn:E1; [|vm_compute in E1; discriminate E1].
  destruct (simulate_sip no_pow scenario_frame (Fin 500) "enhanced")
    as [sim2|e] eqn:E2; [|vm_compute in E2; discriminate E2].
  exists sim1, sim2. split; [reflexivity|]. split; [reflexivity|].
  eapply purchase_days_do_not_depend_on_strategy; eassumption.
Defined.

Lemma sum_snoc (xs : list float) (x : float) : sum (xs ++ [x]) = sum xs + x.
Proof. unfold sum. now rewrite fold_left_app. Qed.

Lemma invest_keeps_consistency (base_amount : float) (strategy : string)
    (st : ledger) (group : DataFrame) :
  ledger_consistent st ->
  ledger_consistent (invest base_amount strategy st group).
Proof.
  intros [Hu [Ha Hr]]. unfold invest.
  destruct (sort_by_date group) as [|r t];
    [exact (conj Hu (conj Ha Hr))|].
  unfold ledger_consistent, running_totals.
  cbn [acc_units acc_invested acc_investments].
  set (e := mkInvestment _ _ _ _ _ _ _).
  assert (Eu : acc_units st
               + investment_amount base_amount strategy r / nav r
               = sum (map units (acc_investments st ++ [e]))).
  { rewrite map_app. cbn [map]. rewrite sum_snoc, <- Hu. reflexivity. }
  assert (Ea : acc_invested st + investment_amount base_amount strategy r
               = sum (map amount (acc_investments st ++ [e]))).
  { rewrite map_app. cbn [map]. rewrite sum_snoc, <- Ha. reflexivity. }
  split; [exact Eu|]. split; [exact Ea|].
  intros k i Hk.
  destruct (Nat.lt_ge_cases k (List.length (acc_investments st)))
    as [Hlt|Hge].
  - rewrite nth_error_app1 in Hk by exact Hlt.
    rewrite firstn_app.
    replace (S k - List.length (acc_investments st))%nat with 0%nat by lia.
    cbn [firstn]. rewrite app_nil_r. now apply Hr.
  - rewrite nth_error_app2 in Hk by exact Hge.
    destruct (k - List.length (acc_investments st))%nat as [|n] eqn:En.
    + simpl in Hk. injection Hk as <-.
      rewrite firstn_all2 by (rewrite length_app; simpl; lia).
      subst e. cbn [inv_total_units inv_total_invested].
      split; [exact Eu|exact Ea].
    + simpl in Hk. destruct n; discriminate.
Qed.

Lemma run_investments_consistent (base_amount : float) (strategy : string)
    (df : DataFrame) :
  ledger_consistent (run_investments base_amount strategy df).
Proof.
  unfold run_investments.
  assert (H0 : ledger_consistent (mkLedger (Fin 0) (Fin 0) [])).
  { split; [reflexivity|]. split; [reflexivity|].
    intros k i Hk. destruct k; discriminate Hk. }
  revert H0. generalize (mkLedger (Fin 0) (Fin 0) []).
  induction (map snd (groupby_year_month df)) as [|g gs IH];
    intros st Hst; simpl; [exact Hst|].
  apply IH. now apply invest_keeps_consistency.
Qed.

(** X6: in the ledger of a simulation every contribution buys
    amount / price units, and its cumulative units and cumulative invested
    amount are the sums of the units and amounts of the contributions up to
    and including itself. *)
Theorem contributions_accumulate (real_pow : Q -> Q -> float)
    (df : DataFrame) (base_amount : float) (strategy : string)
    (sim : simulation) :
  simulate_sip real_pow df base_amount strategy = Ok sim ->
  forall k i,
    nth_error (investments sim) k = Some i ->
    units i = amount i / inv_nav i
    /\ inv_total_units i
       = sum (map units (firstn (S k) (investments sim)))
    /\ inv_total_invested i
       = sum (map amount (firstn (S k) (investments sim))).
Proof.
  intros E k i Hk.
  destruct (simulate_sip_ok _ _ _ _ _ E) as [_ [Hinv _]].
  rewrite Hinv in *.
  destruct (run_investments_consistent base_amount strategy df)
    as [_ [_ Hr]].
  split; [|now apply Hr].
  destruct (ledger_entry base_amount strategy df i (nth_error_In _ _ Hk))
    as [m [r [_ [_ [Hn [_ [_ Hu]]]]]]].
  now rewrite Hu, Hn.
Qed.

Lemma contributions_accumulate_witness :
  exists sim i,
    simulate_sip no_pow scenario_frame (Fin 1000) "regular" = Ok sim
    /\ nth_error (investments sim) 1 = Some i
    /\ inv_total_invested i
       = sum (map amount (firstn 2 (investments sim))).
Proof.
  destruct (simulate_sip no_pow scenario_frame (Fin 1000) "regular")
    as [sim|e] eqn:E; [|vm_compute in E; discriminate E].
  destruct (nth_error (investments sim) 1) as [i|] eqn:Ei.
  - exists sim, i. split; [reflexivity|]. split; [exact Ei|].
    eapply contributions_accumulate; eassumption.
  - vm_compute in E. injection E as <-. discriminate Ei.
Defined.
End SimulatorMore.

(** ** The size of a contribution *)

Lemma Qle_bool_false (x y : Q) : Qle_bool x y = false -> (y < x)%Q.
Proof.
  intro H. apply Qnot_le_lt. intro L. apply Qle_bool_iff in L. congruence.
Qed.

Section Amounts.
Import SIPBacktest.

Lemma multiplier_values (current_nav previous_nav percent_change : float) :
  In (calculate_enhanced_multiplier current_nav previous_nav percent_change)
     [Fin 2.0; Fin 1.5; Fin 1.25; Fin 1.15; Fin 0.85; Fin 1.0].
Proof.
  unfold calculate_enhanced_multiplier.
  repeat match goal with
         | |- context [if ?c then _ else _] => destruct c
         end; simpl; auto 10.
Qed.

Lemma investment_amount_bounds (b : Q) (strategy : string) (r : row) :
  (0 <= b)%Q ->
  (Fin 0.85 * Fin b <=? investment_amount (Fin b) strategy r) = true
  /\ (investment_amount (Fin b) strategy r <=? Fin 2 * Fin b) = true.
Proof.
  intro Hb. unfold investment_amount.
  destruct (String.eqb strategy "enhanced").
  - remember (if notna (nav_change r)
              then calculate_enhanced_multiplier (nav r)
                     (nav r / (Fin 1 + nav_change r / Fin 100))
                     (nav_change r)
              else Fin 1.0) as m eqn:Em.
    assert (Hm : In m [Fin 2.0; Fin 1.5; Fin 1.25; Fin 1.15; Fin 0.85;
                       Fin 1.0]).
    { subst m. destruct (notna (nav_change r));
        [apply multiplier_values|simpl; auto 10]. }
    clear Em. cbn [In] in Hm.
    repeat (destruct Hm as [<-|Hm];
            [cbn [fmul fleb]; rewrite !Qle_bool_iff; split; lra|]).
    contradiction.
  - simpl. rewrite !Qle_bool_iff. split; lra.
Qed.

(** X7: with a base amount that is not negative, no contribution of either
    strategy is below 0.85 times the base amount or above twice the base
    amount. *)
Theorem contribution_within_bounds (real_pow : Q -> Q -> float)
    (df : DataFrame) (b : Q) (strategy : string) (sim : simulation) :
  (0 <= b)%Q ->
  simulate_sip real_pow df (Fin b) strategy = Ok sim ->
  forall i, In i (investments sim) ->
            (Fin 0.85 * Fin b <=? amount i) = true
            /\ (amount i <=? Fin 2 * Fin b) = true.
Proof.
  intros Hb E i Hi.
  destruct (simulate_sip_ok _ _ _ _ _ E) as [_ [Hinv _]].
  rewrite Hinv in Hi.
  destruct (ledger_entry (Fin b) strategy df i Hi)
    as [m [r [_ [_ [_ [_ [Ha _]]]]]]].
  rewrite Ha. now apply investment_amount_bounds.
Qed.

Lemma contribution_within_bounds_witness :
  exists sim,
    simulate_sip no_pow scenario_frame (Fin 1000) "enhanced" = Ok sim
    /\ forall i, In i (investments sim) ->
                 (amount i <=? Fin 2 * Fin 1000) = true.
Proof.
  destruct (simulate_sip no_pow scenario_frame (Fin 1000) "enhanced")
    as [sim|e] eqn:E; [|vm_compute in E; discriminate E].
  exists sim. split; [reflexivity|]. intros i Hi.
  destruct (contribution_within_bounds no_pow scenario_frame 1000
              "enhanced" sim) with (i := i) as [_ H].
  - discriminate.
  - exact E.
  - exact Hi.
  - exact H.
Defined.
End Amounts.

(** ** The comparison as a whole *)

Section Pipeline.
Import SIPBacktest.

Lemma historical_data_empty (fetch : service) (scheme_code : string)
    (days : Z) :
  get_historical_data fetch scheme_code days = []
  <-> get_nav_history fetch scheme_code (Some days) = [].
Proof.
  destruct (backtest_prepared_columns fetch scheme_code days) as [Hr _].
  apply (f_equal (@List.length _)) in Hr. rewrite !length_map in Hr.
  assert (Hs : List.length
                 (sort_records
                    (get_nav_history fetch scheme_code (Some days)))
               = List.length (get_nav_history fetch scheme_code (Some days))).
  { apply Permutation_length, Permutation_sym, stable_sort_perm. }
  rewrite Hs in Hr.
  split; intro H; rewrite H in Hr; simpl in Hr.
  - now apply length_zero_iff_nil.
  - now apply length_zero_iff_nil.
Qed.

Lemma compare_strategies_cases (fetch : service)
    (real_pow : Q -> Q -> float) (scheme_code : string)
    (base_amount : float) (days : Z) :
  let df := get_historical_data fetch scheme_code days in
  (df = []
   /\ compare_strategies fetch real_pow scheme_code base_amount days
      = Ok EmptyDict)
  \/ (df <> []
      /\ exists fixed variable fixed_rolling variable_rolling,
           simulate_sip real_pow df base_amount "regular" = Ok fixed
           /\ simulate_sip real_pow df base_amount "enhanced" = Ok variable
           /\ Forall2 (rolling_point_at (investments fixed) 12)
                (range 12 (len (investments fixed))) fixed_rolling
           /\ Forall2 (rolling_point_at (investments variable) 12)
                (range 12 (len (investments variable))) variable_rolling
           /\ compare_strategies fetch real_pow scheme_code base_amount days
              = Ok (Comparison
                      (mkComparison fixed variable fixed_rolling
                         variable_rolling
                         (absolute_return variable - absolute_return fixed)
                         (return_percent variable
                          - return_percent fixed)))).
Proof.
  cbv zeta. unfold compare_strategies.
  destruct (get_historical_data fetch scheme_code days) as [|r t] eqn:Edf.
  - left. split; reflexivity.
  - right. assert (Hne : r :: t <> []) by discriminate.
    split; [exact Hne|].
    destruct (simulate_sip_fields real_pow (r :: t) base_amount "regular" Hne)
      as [fixed [_ [_ [Ef [_ [_ [Hif _]]]]]]].
    destruct (simulate_sip_fields real_pow (r :: t) base_amount "enhanced"
                Hne)
      as [variable [_ [_ [Ev [_ [_ [Hiv _]]]]]]].
    assert (Hnf : investments fixed <> []).
    { rewrite Hif. now apply ledger_nonempty. }
    assert (Hnv : investments variable <> []).
    { rewrite Hiv. now apply ledger_nonempty. }
    destruct (rolling_returns_points (investments fixed) (r :: t) 12 Hnf)
      as [fr [Efr Ffr]]; [lia|].
    destruct (rolling_returns_points (investments variable) (r :: t) 12 Hnv)
      as [vr [Evr Fvr]]; [lia|].
    exists fixed, variable, fr, vr.
    rewrite Ef, Ev. cbn [bind]. rewrite Efr, Evr. cbn [bind].
    repeat split; assumption.
Qed.

Lemma length_range (a b : Z) : List.length (range a b) = Z.to_nat (b - a).
Proof. unfold range. now rewrite length_map, length_seq. Qed.

(** X9: in a comparison both strategies have the same number of
    contributions, one per month of the series, and each rolling-return
    series has that number less 12 points: none at all for a series of 12
    months or fewer. *)
Theorem rolling_returns_start_after_twelve_months (fetch : service)
    (real_pow : Q -> Q -> float) (scheme_code : string)
    (base_amount : float) (days : Z) (c : comparison) :
  compare_strategies fetch real_pow scheme_code base_amount days
  = Ok (Comparison c) ->
  num_investments (regular c)
  = List.length (group_keys (get_historical_data fetch scheme_code days))
  /\ num_investments (enhanced c) = num_investments (regular c)
  /\ List.length (regular_rolling c)
     = (num_investments (regular c) - 12)%nat
  /\ List.length (enhanced_rolling c)
     = (num_investments (regular c) - 12)%nat.
Proof.
  intro E.
  destruct (compare_strategies_cases fetch real_pow scheme_code base_amount
              days) as [[_ E']|[_ [f [v [fr [vr [Ef [Ev [Ff [Fv E']]]]]]]]]];
    rewrite E in E'; [discriminate E'|].
  injection E' as ->. cbn [regular enhanced regular_rolling enhanced_rolling].
  destruct (simulate_sip_ok _ _ _ _ _ Ef) as [_ [Hf Nf]].
  destruct (simulate_sip_ok _ _ _ _ _ Ev) as [_ [Hv Nv]].
  assert (Lf : List.length (investments f)
               = List.length
                   (group_keys (get_historical_data fetch scheme_code days))).
  { rewrite Hf, <- (ledger_month_list base_amount "regular").
    now rewrite length_map. }
  assert (Lv : List.length (investments v) = List.length (investments f)).
  { rewrite Lf, Hv, <- (ledger_month_list base_amount "enhanced").
    now rewrite length_map. }
  apply Forall2_length in Ff, Fv. rewrite length_range in Ff, Fv.
  unfold len in Ff, Fv.
  rewrite Nf, Nv. repeat split; lia.
Qed.

Lemma rolling_returns_start_after_twelve_months_witness :
  exists c,
    compare_strategies scenario no_pow "scheme" (Fin 1000) 1000
    = Ok (Comparison c)
    /\ List.length (regular_rolling c)
       = (num_investments (regular c) - 12)%nat.
Proof.
  destruct (compare_strategies scenario no_pow "scheme" (Fin 1000) 1000)
    as [[|c]|e] eqn:E; try (vm_compute in E; discriminate E).
  exists c. split; [reflexivity|].
  eapply rolling_returns_start_after_twelve_months. exact E.
Defined.

(** X10: when the first and the last row of the series carry the same date,
    as they do in a series of one row, the growth rate of the summary is
    0. *)
Theorem growth_rate_is_zero_without_elapsed_time
    (real_pow : Q -> Q -> float) (df : DataFrame) (base_amount : float)
    (strategy : string) (sim : simulation) (first_row last_row : row) :
  simulate_sip real_pow df base_amount strategy = Ok sim ->
  iloc df 0 = Ok first_row ->
  iloc df (-1) = Ok last_row ->
  date first_row = date last_row ->
  cagr sim = Fin 0.
Proof.
  intros E Hf Hl Hd.
  destruct (simulate_sip_ok _ _ _ _ _ E) as [Hne _].
  destruct (summary_guards real_pow df base_amount strategy Hne)
    as [sim' [fr [lr [E' [Hf' [Hl' [_ Hc]]]]]]].
  rewrite E in E'. injection E' as <-.
  rewrite Hf in Hf'. injection Hf' as <-.
  rewrite Hl in Hl'. injection Hl' as <-.
  apply Hc. unfold days_between. rewrite Hd. lia.
Qed.

Lemma growth_rate_is_zero_without_elapsed_time_witness :
  exists sim,
    simulate_sip no_pow
      (get_historical_data single_point "scheme" 1000) (Fin 1000) "regular"
    = Ok sim
    /\ cagr sim = Fin 0.
Proof.
  destruct (simulate_sip no_pow
              (get_historical_data single_point "scheme" 1000) (Fin 1000)
              "regular") as [sim|e] eqn:E;
    [|vm_compute in E; discriminate E].
  exists sim. split; [reflexivity|].
  eapply growth_rate_is_zero_without_elapsed_time;
    [exact E|reflexivity|reflexivity|reflexivity].
Defined.

(** X11: for records that parse, [backtest_fund] back-tests the first match
    only.  Whenever it returns, its result is what [compare_strategies]
    returns for the first match, and it is the empty dictionary exactly when
    no scheme matches the name or the first match has no history within
    [days]. *)
Theorem backtest_fund_uses_first_match (all_schemes : list scheme)
    (fetch : service) (real_pow : Q -> Q -> float) (fund_name : string)
    (base_amount : float) (days : Z) (outcome : report) :
  backtest_fund all_schemes fetch real_pow fund_name base_amount days
  = Ok outcome ->
  (outcome = EmptyDict <->
   search_schemes all_schemes fund_name = []
   \/ exists s rest,
        search_schemes all_schemes fund_name = s :: rest
        /\ get_nav_history fetch (schemeCode s) (Some days) = [])
  /\ (forall s rest,
         search_schemes all_schemes fund_name = s :: rest ->
         compare_strategies fetch real_pow (schemeCode s) base_amount days
         = Ok outcome).
Proof.
  unfold backtest_fund.
  destruct (search_schemes all_schemes fund_name) as [|s rest].
  - intros [= <-]. split.
    + split; [now left|reflexivity].
    + intros s rest [=].
  - intro E.
    destruct (compare_strategies_cases fetch real_pow (schemeCode s)
                base_amount days)
      as [[Hd E']|[Hd [f [v [fr [vr [_ [_ [_ [_ E']]]]]]]]]];
      rewrite E in E'; injection E' as ->.
    + split.
      * split; [|reflexivity]. intros _. right. exists s, rest.
        split; [reflexivity|]. now apply historical_data_empty.
      * intros s' rest' [= <- <-]. exact E.
    + split.
      * split; [discriminate|].
        intros [[=]|[s' [rest' [[= <- <-] Hh]]]].
        apply historical_data_empty in Hh. contradiction.
      * intros s' rest' [= <- <-]. exact E.
Qed.
End Pipeline.

(** ** Searching the catalogue *)

Section Search.
Local Open Scope string_scope.

Lemma prefix_spec (n h : string) :
  String.prefix n h = true <-> exists b, h = n ++ b.
Proof.
  revert h. induction n as [|c n IH]; intro h; simpl.
  - split; [intros _; now exists h|intros _; now destruct h].
  - destruct h as [|c' h]; simpl; [split; [discriminate|intros [b [=]]]|].
    destruct (Ascii.ascii_dec c c') as [<-|Hc].
    + rewrite IH. split; intros [b E]; exists b; [now rewrite E|].
      now injection E.
    + split; [discriminate|]. intros [b [= E _]]. congruence.
Qed.

Lemma contains_nil (n : string) : contains n "" = String.prefix n "".
Proof. cbn [contains]. apply orb_false_r. Qed.

Lemma contains_cons (n : string) (c : ascii) (h : string) :
  contains n (String c h) = String.prefix n (String c h) || contains n h.
Proof. reflexivity. Qed.

Lemma contains_spec (n h : string) :
  contains n h = true <-> exists a b, h = a ++ n ++ b.
Proof.
  split.
  - induction h as [|c h IH].
    + rewrite contains_nil. intro H. apply prefix_spec in H.
      destruct H as [b E]. now exists "", b.
    + rewrite contains_cons, orb_true_iff. intros [H|H].
      * apply prefix_spec in H. destruct H as [b E]. now exists "", b.
      * destruct (IH H) as [a [b E]]. exists (String c a), b.
        simpl. now rewrite E.
  - intros [a [b ->]]. induction a as [|c a IH].
    + change ("" ++ n ++ b) with (n ++ b).
      assert (P : String.prefix n (n ++ b) = true)
        by (apply prefix_spec; now exists b).
      destruct (n ++ b) as [|c r].
      * now rewrite contains_nil.
      * now rewrite contains_cons, P.
    + change (String c a ++ n ++ b) with (String c (a ++ n ++ b)).
      rewrite contains_cons, IH. apply orb_true_r.
Qed.

Lemma lower_char_idempotent (c : ascii) :
  lower_char (lower_char c) = lower_char c.
Proof. destruct c as [[] [] [] [] [] [] [] []]; reflexivity. Qed.

Lemma lower_idempotent (s : string) : lower (lower s) = lower s.
Proof.
  induction s as [|c s IH]; simpl; [reflexivity|].
  now rewrite lower_char_idempotent, IH.
Qed.

(** X12: [search_schemes] returns, in catalogue order, exactly the schemes
    whose lower-cased name contains the lower-cased keyword.  The search
    does not depend on the case of the keyword, and the empty keyword
    matches every scheme. *)
Theorem search_schemes_matches_names (all_schemes : list scheme)
    (keyword : string) :
  (forall s,
      In s (search_schemes all_schemes keyword) <->
      In s all_schemes
      /\ exists a b, lower (schemeName s) = a ++ lower keyword ++ b)
  /\ (exists keep,
         search_schemes all_schemes keyword = filter keep all_schemes)
  /\ search_schemes all_schemes (lower keyword)
     = search_schemes all_schemes keyword
  /\ search_schemes all_schemes "" = all_schemes.
Proof.
  split; [|split; [|split]].
  - intro s. unfold search_schemes. rewrite filter_In, contains_spec.
    reflexivity.
  - eexists. reflexivity.
  - unfold search_schemes. now rewrite lower_idempotent.
  - unfold search_schemes. simpl lower.
    induction all_schemes as [|s t IH]; simpl; [reflexivity|].
    replace (contains "" (lower (schemeName s))) with true.
    + now rewrite IH.
    + symmetry. apply contains_spec. now exists "", (lower (schemeName s)).
Qed.
End Search.

(** ** More on the opportunities and the monthly strategy *)

Lemma iloc_from_end {A : Type} (l : list A) (k : nat) (a : A) :
  (1 <= k <= List.length l)%nat ->
  iloc l (- Z.of_nat k) = Ok a ->
  nth_error l (List.length l - k) = Some a.
Proof.
  intros Hk. unfold iloc, len.
  replace (- Z.of_nat k <? 0)%Z with true by (symmetry; to_prop; lia).
  replace (Z.of_nat (List.length l) + - Z.of_nat k <? 0)%Z with false
    by (symmetry; to_prop; lia).
  replace (Z.to_nat (Z.of_nat (List.length l) + - Z.of_nat k))
    with (List.length l - k)%nat by lia.
  destruct (nth_error l (List.length l - k)); [|discriminate].
  now intros [= ->].
Qed.

Section Advice.
Import EnhancedSIP.

Lemma monthly_strategy_cases (fetch : service) (code : string)
    (base_amount : float) :
  let df := analyze_nav_trends fetch code 30 in
  (df = []
   /\ get_monthly_investment_strategy fetch code base_amount = Ok EmptyDict)
  \/ (List.length df = 1%nat
      /\ get_monthly_investment_strategy fetch code base_amount
         = Raise IndexError)
  \/ ((2 <= List.length df)%nat
      /\ exists latest previous,
           iloc df (-1) = Ok latest
           /\ iloc df (-2) = Ok previous
           /\ let m :=
                if nav latest <? nav previous * Fin 0.95 then Fin 1.5
                else if nav latest <? nav previous * Fin 0.98 then Fin 1.25
                else if nav latest >? nav previous * Fin 1.02 then Fin 0.85
                else Fin 1.0 in
              get_monthly_investment_strategy fetch code base_amount
              = Ok (Strategy
                      (mkStrategy code
                         (round (nav latest) 2)
                         (round (nav previous) 2)
                         (round (series_mean (map nav df)) 2)
                         (round (nav_change latest) 2)
                         base_amount
                         (round (base_amount * m) 2)
                         (round m 2)
                         (round (base_amount * m / nav latest) 3)
                         (_get_strategy_message m)))).
Proof.
  cbv zeta. unfold get_monthly_investment_strategy.
  destruct (analyze_nav_trends fetch code 30) as [|a [|b t]] eqn:E.
  - left. split; reflexivity.
  - right. left. split; reflexivity.
  - right. right. split; [simpl; lia|].
    destruct (iloc_in_range (a :: b :: t) (-1)) as [x Ex].
    { unfold len. simpl List.length. lia. }
    destruct (iloc_in_range (a :: b :: t) (-2)) as [y Ey].
    { unfold len. simpl List.length. lia. }
    exists x, y. rewrite Ex, Ey. cbn [bind]. repeat split.
Qed.



Lemma recommendation_of_drop (x : float) :
  (x <=? Fin (-2)) = true ->
  _get_recommendation (fabs x)
  = if x <=? Fin (-3)
    then "Excellent - Invest 150-200% of regular SIP"%string
    else "Very Good - Invest 125-150% of regular SIP"%string.
Proof.
  unfold _get_recommendation, fgeb.
  destruct x as [a| | |]; simpl; try discriminate; [|reflexivity].
  intro H. apply Qle_bool_iff in H.
  assert (Ea : (Qabs a == - a)%Q) by (apply Qabs_neg; lra).
  destruct (Qle_bool a (-3)) eqn:E3.
  - apply Qle_bool_iff in E3.
    replace (Qle_bool 3.0 (Qabs a)) with true; [reflexivity|].
    symmetry. apply Qle_bool_iff. lra.
  - apply Qle_bool_false in E3.
    replace (Qle_bool 3.0 (Qabs a)) with false.
    + replace (Qle_bool 2.0 (Qabs a)) with true; [reflexivity|].
      symmetry. apply Qle_bool_iff. lra.
    + symmetry. destruct (Qle_bool 3.0 (Qabs a)) eqn:E; [|reflexivity].
      apply Qle_bool_iff in E. lra.
Qed.

(** X14: with a threshold at or below -2 every opportunity is recommended
    as "Excellent" or "Very Good", never lower: "Excellent" exactly when
    the percent change of its point, unrounded, is at or below -3. *)
Theorem recommendation_follows_the_drop (fetch : service)
    (scheme_code : string) (drop_threshold : float) (days : Z) :
  (drop_threshold <=? Fin (-2)) = true ->
  forall o,
    In o (find_best_investment_dates fetch scheme_code drop_threshold days) ->
    exists r,
      In r (analyze_nav_trends fetch scheme_code days)
      /\ opp_date o = date r
      /\ (nav_change r <=? drop_threshold) = true
      /\ recommendation o
         = if nav_change r <=? Fin (-3)
           then "Excellent - Invest 150-200% of regular SIP"%string
           else "Very Good - Invest 125-150% of regular SIP"%string.
Proof.
  intros Ht o Ho. rewrite find_best_investment_dates_rows in Ho.
  apply in_map_iff in Ho. destruct Ho as [r [<- Hr]].
  apply stable_sort_in, filter_In in Hr. destruct Hr as [Hin Hq].
  exists r. split; [exact Hin|]. split; [reflexivity|]. split; [exact Hq|].
  cbn [describe recommendation]. unfold opportunity_score.
  apply recommendation_of_drop. eapply fleb_trans; eassumption.
Qed.

Lemma recommendation_follows_the_drop_witness :
  Forall
    (fun o => recommendation o
              = "Very Good - Invest 125-150% of regular SIP"%string)
    (find_best_investment_dates two_close_drops "scheme" (Fin (-2)) 600).
Proof.
  apply Forall_forall. intros o Ho.
  destruct (recommendation_follows_the_drop two_close_drops "scheme"
              (Fin (-2)) 600 eq_refl o Ho) as [r [Hin [_ [_ ->]]]].
  vm_compute in Hin.
  destruct Hin as [<-|[<-|[<-|[<-|[]]]]]; reflexivity.
Defined.

Lemma strategy_message_of_tier (m : float) :
  In m [Fin 1.5; Fin 1.25; Fin 0.85; Fin 1.0] ->
  In (m, _get_strategy_message m) monthly_tiers.
Proof.
  cbn [In]. intros [<-|[<-|[<-|[<-|[]]]]]; vm_compute; auto.
Qed.

(** X15: a monthly strategy always carries one of four multipliers, 1.5,
    1.25, 0.85 or 1.0, together with the message that belongs to it; the
    recommended amount is the base amount times that multiplier, rounded to
    2 decimals, and the result repeats the scheme code and the base amount
    it was asked with. *)
Theorem monthly_strategy_tiers (fetch : service) (code : string)
    (base_amount : float) (s : monthly_strategy) :
  get_monthly_investment_strategy fetch code base_amount = Ok (Strategy s) ->
  exists m,
    In (m, strategy s) monthly_tiers
    /\ multiplier s = round m 2
    /\ recommended_amount s = round (base_amount * m) 2
    /\ base_sip_amount s = base_amount
    /\ scheme_code s = code.
Proof.
  intro E.
  destruct (monthly_strategy_cases fetch code base_amount)
    as [[_ E']|[[_ E']|[_ [x [y [_ [_ E']]]]]]];
    rewrite E in E'; try discriminate E'.
  cbv zeta in E'. injection E' as ->.
  cbn [strategy multiplier recommended_amount base_sip_amount scheme_code].
  eexists. split; [|repeat split].
  apply strategy_message_of_tier.
  repeat match goal with
         | |- context [if ?c then _ else _] => destruct c
         end; simpl; auto.
Qed.

Lemma monthly_strategy_tiers_witness :
  exists s,
    get_monthly_investment_strategy scenario "scheme" (Fin 10000)
    = Ok (Strategy s)
    /\ base_sip_amount s = Fin 10000.
Proof.
  destruct (get_monthly_investment_strategy scenario "scheme" (Fin 10000))
    as [[|s]|e] eqn:E; try (vm_compute in E; discriminate E).
  exists s. split; [reflexivity|].
  destruct (monthly_strategy_tiers scenario "scheme" (Fin 10000) s E)
    as [m [_ [_ [_ [H _]]]]].
  exact H.
Defined.

(** X16: the recent change reported by the monthly strategy is the change
    from the second-to-last to the last point of the analysed series,
    (last price / previous price - 1) x 100, rounded to 2 decimals, and the
    two reported prices are those of these two points. *)
Theorem recent_change_is_between_last_two_points (fetch : service)
    (code : string) (base_amount : float) (s : monthly_strategy) :
  get_monthly_investment_strategy fetch code base_amount = Ok (Strategy s) ->
  exists latest previous,
    iloc (analyze_nav_trends fetch code 30) (-1) = Ok latest
    /\ iloc (analyze_nav_trends fetch code 30) (-2) = Ok previous
    /\ current_nav s = round (nav latest) 2
    /\ previous_nav s = round (nav previous) 2
    /\ recent_change_percent s
       = round ((nav latest / nav previous - Fin 1) * Fin 100) 2.
Proof.
  intro E.
  destruct (monthly_strategy_cases fetch code base_amount)
    as [[_ E']|[[_ E']|[Hl [x [y [Hx [Hy E']]]]]]];
    rewrite E in E'; try discriminate E'.
  cbv zeta in E'. injection E' as ->.
  exists x, y. split; [exact Hx|]. split; [exact Hy|].
  split; [reflexivity|]. split; [reflexivity|].
  cbn [recent_change_percent]. f_equal.
  set (df := analyze_nav_trends fetch code 30) in *.
  apply (iloc_from_end df 1) in Hx; [|lia].
  apply (iloc_from_end df 2) in Hy; [|lia].
  destruct (enhanced_prepared_columns fetch code 30) as [Hr [Hc _]].
  fold df in Hr, Hc. apply prepared_navs in Hr.
  rewrite map_map in Hr. cbn [snd] in Hr. rewrite <- Hr in Hc.
  rewrite pct_change_from in Hc.
  assert (Hn : nth_error (map nav_change df) (List.length df - 1)
               = Some ((nav x / nav y - Fin 1) * Fin 100)).
  { rewrite Hc, nth_error_map.
    replace (List.length df - 1)%nat with (S (List.length df - 2)) by lia.
    rewrite (changes_from_next NaN (map (fun r => nav r) df)
               (List.length df - 2) (nav y) (nav x)).
    - reflexivity.
    - now rewrite nth_error_map, Hy.
    - replace (S (List.length df - 2)) with (List.length df - 1)%nat by lia.
      now rewrite nth_error_map, Hx. }
  rewrite nth_error_map, Hx in Hn. now injection Hn.
Qed.

Lemma recent_change_is_between_last_two_points_witness :
  exists s,
    get_monthly_investment_strategy scenario "scheme" (Fin 10000)
    = Ok (Strategy s)
    /\ current_nav s = Fin 103.
Proof.
  destruct (get_monthly_investment_strategy scenario "scheme" (Fin 10000))
    as [[|s]|e] eqn:E; try (vm_compute in E; discriminate E).
  exists s. split; [reflexivity|].
  destruct (recent_change_is_between_last_two_points scenario "scheme"
              (Fin 10000) s E) as [x [y [Hx [_ [-> _]]]]].
  vm_compute in Hx. injection Hx as <-. reflexivity.
Defined.


End Advice.

(** ** The two preparations and the summary *)

(** X18: [get_historical_data] and [analyze_nav_trends] prepare the same
    series: for the same scheme and number of days their frames agree row
    by row on date, price, percent change and 30-point moving average. *)
Theorem both_preparations_agree (fetch : service) (scheme_code : string)
    (days : Z) :
  map (fun r => (SIPBacktest.date r, SIPBacktest.nav r,
                 SIPBacktest.nav_change r, SIPBacktest.nav_ma_30 r))
    (SIPBacktest.get_historical_data fetch scheme_code days)
  = map (fun r => (EnhancedSIP.date r, EnhancedSIP.nav r,
                   EnhancedSIP.nav_change r, EnhancedSIP.nav_ma_30 r))
      (EnhancedSIP.analyze_nav_trends fetch scheme_code days).
Proof.
  unfold SIPBacktest.get_historical_data, EnhancedSIP.analyze_nav_trends.
  destruct (get_nav_history fetch scheme_code (Some days)) as [|r0 t];
    [reflexivity|].
  unfold SIPBacktest.make_frame, EnhancedSIP.make_frame.
  set (records := sort_records (r0 :: t)).
  set (navs := map (fun r => Fin (rec_nav r)) records).
  set (changes := map (fun c => c * Fin 100) (pct_change navs)).
  set (ma7 := rolling_mean 7 navs).
  set (ma := rolling_mean 30 navs).
  assert (Hc : List.length changes = List.length records).
  { subst changes navs. now rewrite length_map, length_pct_change,
      length_map. }
  assert (Hm7 : List.length ma7 = List.length records).
  { subst ma7 navs. now rewrite length_rolling_mean, length_map. }
  assert (Hm : List.length ma = List.length records).
  { subst ma navs. now rewrite length_rolling_mean, length_map. }
  clearbody changes ma7 ma. clear navs. clearbody records.
  rewrite !map_map. cbn.
  revert changes ma7 ma Hc Hm7 Hm.
  induction records as [|x xs IH]; intros changes ma7 ma Hc Hm7 Hm.
  - reflexivity.
  - destruct changes as [|c cs], ma7 as [|a7 as7], ma as [|a as30];
      simpl in Hc, Hm7, Hm; try lia.
    simpl. f_equal. apply IH; lia.
Qed.

Section Summary.
Import SIPBacktest.

(** X19: the summary is computed from the ledger and the last row of the
    series: the final price is the price of the series' last row, the final
    value is the sum of the purchased units times that price, and the
    absolute return is that value less the sum of the amounts, each rounded
    to 2 decimals on its own. *)
Theorem summary_is_valued_at_the_last_row (real_pow : Q -> Q -> float)
    (df : DataFrame) (base_amount : float) (strategy_name : string)
    (sim : simulation) :
  simulate_sip real_pow df base_amount strategy_name = Ok sim ->
  exists last_row,
    iloc df (-1) = Ok last_row
    /\ final_nav sim = round (nav last_row) 2
    /\ final_value sim
       = round (sum (map units (investments sim)) * nav last_row) 2
    /\ absolute_return sim
       = round (sum (map units (investments sim)) * nav last_row
                - sum (map amount (investments sim))) 2
    /\ strategy sim = strategy_name.
Proof.
  intro E. destruct df as [|r t]; [discriminate E|].
  assert (Hne : r :: t <> []) by discriminate.
  destruct (iloc_last_ok (r :: t) Hne) as [last_row [Hl _]].
  destruct (iloc_first_ok (r :: t) Hne) as [first_row [Hf _]].
  destruct (run_investments_spec base_amount strategy_name (r :: t))
    as [_ [Hu [Ha _]]].
  exists last_row. split; [exact Hl|].
  unfold simulate_sip in E. rewrite Hl, Hf in E. cbn [bind] in E.
  injection E as <-.
  cbn [final_nav final_value absolute_return strategy investments].
  rewrite <- Hu, <- Ha. repeat split.
Qed.

Lemma summary_is_valued_at_the_last_row_witness :
  exists sim,
    simulate_sip no_pow scenario_frame (Fin 1000) "regular" = Ok sim
    /\ final_nav sim = Fin 103.
Proof.
  destruct (simulate_sip no_pow scenario_frame (Fin 1000) "regular")
    as [sim|e] eqn:E; [|vm_compute in E; discriminate E].
  exists sim. split; [reflexivity|].
  destruct (summary_is_valued_at_the_last_row no_pow scenario_frame
              (Fin 1000) "regular" sim E) as [l [Hl [-> _]]].
  vm_compute in Hl. injection Hl as <-. reflexivity.
Defined.

Lemma backtest_fund_uses_first_match_witness :
  search_schemes one_scheme "flexi" = []
  \/ exists s rest,
       search_schemes one_scheme "flexi" = s :: rest
       /\ get_nav_history no_data (schemeCode s) (Some 1000%Z) = [].
Proof.
  destruct (backtest_fund_uses_first_match one_scheme no_data no_pow "flexi"
              (Fin 10000) 1000 EmptyDict eq_refl) as [H _].
  apply H. reflexivity.
Defined.
End Summary.

(** ** Rolling returns of a ledger of purchases *)

Section RollingOfPurchases.
Import SIPBacktest.

Lemma sum_of_nonnegative (xs : list float) :
  Forall (fun x => exists a, x = Fin a /\ (0 <= a)%Q) xs ->
  forall acc, (0 <= acc)%Q ->
    exists s, fold_left fadd xs (Fin acc) = Fin s /\ (0 <= s)%Q.
Proof.
  induction 1 as [|x t [a [-> Ha]] _ IH]; intros acc Hacc; simpl.
  - now exists acc.
  - apply IH. lra.
Qed.

Lemma series_sum_of_nonnegative (xs : list float) :
  Forall (fun x => exists a, x = Fin a /\ (0 <= a)%Q) xs ->
  exists s, series_sum xs = Fin s /\ (0 <= s)%Q.
Proof.
  intro H. unfold series_sum, sum. apply sum_of_nonnegative; [|lra].
  apply Forall_forall. intros x Hx. apply filter_In in Hx.
  rewrite Forall_forall in H. apply H. tauto.
Qed.

Lemma fallback_agrees_on_nonnegative (s : Q) (value : float) :
  (0 <= s)%Q ->
  (if Fin s >? Fin 0
   then (value - Fin s) / Fin s * Fin 100
   else Fin 0)
  = return_with_zero_fallback (Fin s) value.
Proof.
  intro Hs. unfold return_with_zero_fallback, fgtb, fltb, Qltb, Qis_zero.
  destruct (Qle_bool s 0) eqn:L; destruct (Qeq_bool s 0) eqn:Z;
    cbn [negb]; try reflexivity; exfalso.
  - apply Qle_bool_iff in L. apply Qeq_bool_neq in Z. apply Z. lra.
  - apply Qle_bool_false in L. apply Qeq_bool_eq in Z. lra.
Qed.

(** On a ledger of n >= 1 contributions whose amounts are finite and not
    negative, and for a window w >= 0, the calculator gives
    one point per index i with w <= i < n, sums over contributions[i-w, i),
    the price of contribution i-1, value = units x price, and the return
    (value - invested) / invested x 100 with 0 as the fallback when invested
    is 0. *)
Lemma rolling_returns_of_purchases (investments : list investment)
    (df : DataFrame) (w : Z) :
  investments <> [] -> (0 <= w)%Z ->
  Forall (fun i => exists a, amount i = Fin a /\ (0 <= a)%Q) investments ->
  exists points,
    calculate_rolling_returns investments df w = Ok points
    /\ List.length points = Z.to_nat (len investments - w)
    /\ forall k, (k < List.length points)%nat ->
         exists p,
           nth_error points k = Some p
           /\ rolling_point_at investments w (w + Z.of_nat k) p
           /\ rr_return_percent p
              = return_with_zero_fallback (invested p) (value p).
Proof.
  intros Hne Hw Hamounts.
  destruct (rolling_returns_per_index investments df w Hne Hw)
    as [points [E [Hlen [Hnth _]]]].
  exists points. split; [exact E|]. split; [exact Hlen|].
  intros k Hk. destruct (Hnth k Hk) as [p [Hp Hat]].
  exists p. split; [exact Hp|]. split; [exact Hat|].
  destruct Hat as [previous [_ [Hi [_ [_ Hr]]]]].
  destruct (series_sum_of_nonnegative
              (map amount
                 (firstn (Z.to_nat w)
                    (skipn (Z.to_nat (w + Z.of_nat k - w)) investments))))
    as [s [Hs Hs0]].
  { apply Forall_forall. intros x Hx. apply in_map_iff in Hx.
    destruct Hx as [i [<- Hin]]. apply in_firstn, in_skipn in Hin.
    rewrite Forall_forall in Hamounts. now apply Hamounts. }
  cbv zeta in Hi. rewrite Hs in Hi. rewrite Hr, Hi.
  now apply fallback_agrees_on_nonnegative.
Qed.
End RollingOfPurchases.
